(** * extract_pdf_content.py: a shallow embedding and its properties

    The script enumerates the [*.pdf] entries of one directory, asks
    pdfplumber for the text of every page of every file, prints a console
    summary and dumps a report as JSON.  The embedding keeps the two
    functions of the script, [extract_pdf_text] and [analyze_pdf_files],
    and models what they touch:

    - a Python [str] is a list of Unicode code points;
    - a [pathlib] path is its list of components;
    - pdfplumber is a function from a path to what opening the file and
      extracting each page does (text, [None], or a raised exception);
    - the insertion-ordered [dict] is an association list;
    - [print] appends a line to the console, [json.dump] produces the
      text handed to the output file. *)

From Stdlib Require Import List NArith ZArith Arith Bool Lia String Ascii.
From Stdlib Require Import Sorted.
Import ListNotations.

Set Implicit Arguments.

(* ================================================================= *)
(** ** Python strings *)

Module PyStr.

Definition codepoint := N.
Definition pystr := list codepoint.

(** A literal of the source, character by character. *)
Definition lit (s : string) : pystr :=
  map N_of_ascii (list_ascii_of_string s).

Definition eqb (a b : pystr) : bool :=
  if list_eq_dec N.eq_dec a b then true else false.

(** [str.isspace] for one code point: CPython's [_PyUnicode_IsWhitespace]. *)
Definition isspace (c : codepoint) : bool :=
  ((9 <=? c) && (c <=? 13) || (28 <=? c) && (c <=? 32)
   || (c =? 133) || (c =? 160) || (c =? 5760)
   || (8192 <=? c) && (c <=? 8202)
   || (c =? 8232) || (c =? 8233) || (c =? 8239) || (c =? 8287)
   || (c =? 12288))%N.

(** [s.lstrip()] *)
Fixpoint lstrip (s : pystr) : pystr :=
  match s with
  | [] => []
  | c :: rest => if isspace c then lstrip rest else s
  end.

(** [s.rstrip()] *)
Definition rstrip (s : pystr) : pystr := List.rev (lstrip (List.rev s)).

(** [s.strip()] *)
Definition strip (s : pystr) : pystr := rstrip (lstrip s).

(** Truth value of a [str]: non-empty. *)
Definition truthy (s : pystr) : bool :=
  match s with [] => false | _ :: _ => true end.

(** Digits of a decimal numeral, most significant first. *)
Fixpoint of_uint (d : Decimal.uint) : pystr :=
  match d with
  | Decimal.Nil => []
  | Decimal.D0 r => 48%N :: of_uint r
  | Decimal.D1 r => 49%N :: of_uint r
  | Decimal.D2 r => 50%N :: of_uint r
  | Decimal.D3 r => 51%N :: of_uint r
  | Decimal.D4 r => 52%N :: of_uint r
  | Decimal.D5 r => 53%N :: of_uint r
  | Decimal.D6 r => 54%N :: of_uint r
  | Decimal.D7 r => 55%N :: of_uint r
  | Decimal.D8 r => 56%N :: of_uint r
  | Decimal.D9 r => 57%N :: of_uint r
  end.

(** [str(n)] for the length of a list. *)
Definition of_nat (n : nat) : pystr := of_uint (Nat.to_uint n).

(** [str(z)] for a Python [int]. *)
Definition of_Z (z : Z) : pystr :=
  match Z.to_int z with
  | Decimal.Pos d => of_uint d
  | Decimal.Neg d => 45%N :: of_uint d
  end.

(** [needle in hay] *)
Definition contains (needle hay : pystr) : Prop :=
  exists pre post, hay = pre ++ needle ++ post.

(** [s.startswith(p)] and [s.endswith(p)] *)
Fixpoint startswith (p s : pystr) : bool :=
  match p, s with
  | [], _ => true
  | _ :: _, [] => false
  | a :: p', b :: s' => (a =? b)%N && startswith p' s'
  end.

Definition endswith (p s : pystr) : bool := startswith (List.rev p) (List.rev s).

End PyStr.
Import PyStr.

(* ================================================================= *)
(** ** pathlib *)

Module Path.

(** An absolute POSIX path: the components below the root. *)
Record t := mk { parts : list pystr }.

(** [Path(...) / child] *)
Definition joinpath (p : t) (child : pystr) : t := mk (parts p ++ [child]).

(** [p.parent] (the root is its own parent) *)
Definition parent (p : t) : t := mk (removelast (parts p)).

(** [p.name] (empty for the root) *)
Definition name (p : t) : pystr := last (parts p) [].

(** [str(p)] *)
Definition str (p : t) : pystr :=
  match parts p with
  | [] => lit "/"
  | ps => flat_map (fun c => lit "/" ++ c) ps
  end.

End Path.

(* ================================================================= *)
(** ** pdfplumber, as far as the script sees it *)

(** What [page.extract_text()] does on one page.  An exception is kept as
    its [str(e)]; only instances of [Exception] are modelled, the class the
    [except] clause of [extract_pdf_text] names. *)
Inductive page_outcome :=
| PageText (text : pystr)
| PageNone
| PageRaises (e : pystr).

(** What [pdfplumber.open(path)] and walking [pdf.pages] do. *)
Inductive open_outcome :=
| OpenRaises (e : pystr)
| Opened (pages : list page_outcome).

Definition pdfplumber := Path.t -> open_outcome.

(* ================================================================= *)
(** ** The data of the report *)

(** [{'page': page_num, 'content': ...}] *)
Record PageRecord := { page : Z; content : pystr }.

(** The value [extract_pdf_text] returns: a list or a string. *)
Inductive FileResult :=
| Success (text_content : list PageRecord)
| Failure (message : pystr).

(** [isinstance(content, list)] *)
Definition isinstance_list (r : FileResult) : bool :=
  match r with Success _ => true | Failure _ => false end.

(** The insertion-ordered [dict] from file name to result. *)
Definition AnalysisReport := list (pystr * FileResult).

(** [d[k] = v]: an existing key keeps its place, a new one goes last. *)
Fixpoint dict_set (d : AnalysisReport) (k : pystr) (v : FileResult)
  : AnalysisReport :=
  match d with
  | [] => [(k, v)]
  | (k', v') :: rest =>
      if PyStr.eqb k' k then (k', v) :: rest
      else (k', v') :: dict_set rest k v
  end.

(** [d.get(k)] *)
Fixpoint dict_get (d : AnalysisReport) (k : pystr) : option FileResult :=
  match d with
  | [] => None
  | (k', v) :: rest => if PyStr.eqb k' k then Some v else dict_get rest k
  end.

Definition dict_keys (d : AnalysisReport) : list pystr := map fst d.

(* ================================================================= *)
(** ** extract_pdf_text *)

(** The body of the [try]: either it runs to its [return] or an exception
    leaves it. *)
Inductive outcome (A : Type) :=
| Returns (a : A)
| Raises (e : pystr).
Arguments Raises {A} e.

(** The [for page_num, page in enumerate(pdf.pages, 1)] loop, from the page
    numbered [page_num] on, with [text_content] as gathered so far. *)
Fixpoint extract_pages (page_num : Z) (pages : list page_outcome)
         (text_content : list PageRecord) : outcome (list PageRecord) :=
  match pages with
  | [] => Returns text_content
  | PageRaises e :: _ => Raises e
  | PageNone :: rest => extract_pages (page_num + 1) rest text_content
  | PageText page_text :: rest =>
      if truthy page_text
      then extract_pages (page_num + 1) rest
             (text_content
                ++ [{| page := page_num; content := strip page_text |}])
      else extract_pages (page_num + 1) rest text_content
  end.

(** The [try] block. *)
Definition try_extract (lib : pdfplumber) (pdf_path : Path.t)
  : outcome (list PageRecord) :=
  match lib pdf_path with
  | OpenRaises e => Raises e
  | Opened pages => extract_pages 1 pages []
  end.

(** [f"Error extracting from {pdf_path}: {str(e)}"] *)
Definition error_message (pdf_path : Path.t) (e : pystr) : pystr :=
  lit "Error extracting from " ++ Path.str pdf_path ++ lit ": " ++ e.

Definition extract_pdf_text (lib : pdfplumber) (pdf_path : Path.t)
  : FileResult :=
  match try_extract lib pdf_path with
  | Returns text_content => Success text_content
  | Raises e => Failure (error_message pdf_path e)
  end.

(* ================================================================= *)
(** ** json.dump *)

(** CPython's encoder on the values the script hands it: a [dict] from
    [str] to either a [str] or a [list] of two-entry [dict]s. *)
Module Json.

Definition hex_digit (n : N) : codepoint :=
  (if n <? 10 then 48 + n else 87 + n)%N.

(** ['\\u{0:04x}'.format(n)] *)
Definition u_escape (n : N) : pystr :=
  [92; 117; hex_digit ((n / 4096) mod 16); hex_digit ((n / 256) mod 16);
   hex_digit ((n / 16) mod 16); hex_digit (n mod 16)]%N.

(** The replacement of one character: [ESCAPE_DCT] for the quote, the
    backslash and the control characters, and, under [ensure_ascii],
    a numeric escape for everything outside [' '..'~']. *)
Definition escape_char (ensure_ascii : bool) (c : codepoint) : pystr :=
  (if c =? 34 then [92; 34]
   else if c =? 92 then [92; 92]
   else if c =? 10 then [92; 110]
   else if c =? 13 then [92; 114]
   else if c =? 9 then [92; 116]
   else if c =? 12 then [92; 102]
   else if c =? 8 then [92; 98]
   else if c <? 32 then u_escape c
   else if ensure_ascii && (126 <? c) then
     if c <? 65536 then u_escape c
     else let v := c - 65536 in
          u_escape (N.lor 55296 (N.land (N.shiftr v 10) 1023))
            ++ u_escape (N.lor 56320 (N.land v 1023))
   else [c])%N.

(** [py_encode_basestring] and [py_encode_basestring_ascii] *)
Definition encode_basestring (ensure_ascii : bool) (s : pystr) : pystr :=
  [34%N] ++ flat_map (escape_char ensure_ascii) s ++ [34%N].

(** ['\n' + ' ' * indent * level] *)
Definition newline_indent (indent level : nat) : pystr :=
  10%N :: repeat 32%N (indent * level).

Fixpoint join (sep : pystr) (chunks : list pystr) : pystr :=
  match chunks with
  | [] => []
  | [c] => c
  | c :: rest => c ++ sep ++ join sep rest
  end.

(** The chunks of a list or dict whose rendered items are [items]: the
    empty one is the two brackets, otherwise every item sits on a line
    of its own, one level deeper. *)
Definition container (opening closing : pystr) (indent level : nat)
           (items : list pystr) : pystr :=
  match items with
  | [] => opening ++ closing
  | _ :: _ =>
      opening ++ newline_indent indent (S level)
        ++ join (lit "," ++ newline_indent indent (S level)) items
        ++ newline_indent indent level ++ closing
  end.

(** [key: value] inside a dict *)
Definition member (ensure_ascii : bool) (key value : pystr) : pystr :=
  encode_basestring ensure_ascii key ++ lit ": " ++ value.

Definition page_record (ensure_ascii : bool) (indent level : nat)
           (r : PageRecord) : pystr :=
  container (lit "{") (lit "}") indent level
    [ member ensure_ascii (lit "page") (of_Z (page r));
      member ensure_ascii (lit "content")
        (encode_basestring ensure_ascii (content r)) ].

Definition file_result (ensure_ascii : bool) (indent level : nat)
           (r : FileResult) : pystr :=
  match r with
  | Success text_content =>
      container (lit "[") (lit "]") indent level
        (map (page_record ensure_ascii indent (S level)) text_content)
  | Failure message => encode_basestring ensure_ascii message
  end.

(** [json.dumps(report, ensure_ascii=..., indent=...)] *)
Definition dumps (ensure_ascii : bool) (indent : nat)
           (report : AnalysisReport) : pystr :=
  container (lit "{") (lit "}") indent 0
    (map (fun kv => member ensure_ascii (fst kv)
                      (file_result ensure_ascii indent 1 (snd kv)))
         report).

End Json.

(** The bytes a text file opened with [encoding='utf-8'] receives for a
    text; [None] where the codec refuses a code point (a surrogate). *)
Module Utf8.

Definition continuation (n : N) : N := N.lor 128 (N.land n 63).

Definition encode_char (c : codepoint) : option (list N) :=
  (if c <? 128 then Some [c]
   else if c <? 2048 then
     Some [N.lor 192 (N.shiftr c 6); continuation c]
   else if c <? 65536 then
     if (55296 <=? c) && (c <=? 57343) then None
     else Some [N.lor 224 (N.shiftr c 12); continuation (N.shiftr c 6);
                continuation c]
   else if c <? 1114112 then
     Some [N.lor 240 (N.shiftr c 18); continuation (N.shiftr c 12);
           continuation (N.shiftr c 6); continuation c]
   else None)%N.

Fixpoint encode (s : pystr) : option (list N) :=
  match s with
  | [] => Some []
  | c :: rest =>
      match encode_char c, encode rest with
      | Some b, Some bs => Some (b ++ bs)
      | _, _ => None
      end
  end.

End Utf8.

(* ================================================================= *)
(** ** analyze_pdf_files *)

(** [Path("/Users/aldoruizluna/labspace/ec0249/reference/raw")] *)
Definition base_path : Path.t :=
  Path.mk (map lit ["Users"; "aldoruizluna"; "labspace"; "ec0249";
                    "reference"; "raw"]%string).

(** [list(dir.glob("*.pdf"))] over the names of the entries of [dir], in
    the order the directory scan gives them. *)
Definition glob_pdf (dir : Path.t) (listing : list pystr) : list Path.t :=
  map (Path.joinpath dir) (filter (endswith (lit ".pdf")) listing).

(** The preview of the first page. *)
Definition first_page_preview (first_content : pystr) : pystr :=
  if 200 <? List.length first_content
  then firstn 200 first_content ++ lit "..."
  else first_content.

(** The lines printed for one result, one per [print]. *)
Definition print_summary (result : FileResult) : list pystr :=
  match result with
  | Success text_content =>
      (lit "  - Pages: " ++ of_nat (List.length text_content))
        :: match text_content with
           | [] => []
           | first :: _ =>
               [lit "  - First page preview: "
                  ++ first_page_preview (content first)]
           end
  | Failure message => [lit "  - Error: " ++ message]
  end.

(** What the loop carries: the dict and what was printed so far. *)
Record loop_state := {
  analysis_results : AnalysisReport;
  console : list pystr
}.

(** One turn of [for pdf_file in pdf_files]. *)
Definition process_file (lib : pdfplumber) (st : loop_state)
           (pdf_file : Path.t) : loop_state :=
  let result := extract_pdf_text lib pdf_file in
  {| analysis_results :=
       dict_set (analysis_results st) (Path.name pdf_file) result;
     console :=
       console st
         ++ [lit "Processing: " ++ Path.name pdf_file]
         ++ print_summary result ++ [[]] |}.

(** The chunks [json.dump] hands to [fp.write] one after the other: with
    an [indent], the generators of [_make_iterencode].  A key or a string
    value is a chunk of its own. *)
Module Iterencode.

(** The loop of [_iterencode_dict] over the items, each given by the
    chunk of its key and the chunks of its value. *)
Fixpoint dict_items (item_separator : pystr) (first : bool)
         (items : list (pystr * list pystr)) : list pystr :=
  match items with
  | [] => []
  | (key, value) :: rest =>
      (if first then [] else [item_separator])
        ++ [key; lit ": "] ++ value
        ++ dict_items item_separator false rest
  end.

(** [_iterencode_dict] *)
Definition iterencode_dict (indent level : nat) (items : list (pystr * list pystr))
  : list pystr :=
  match items with
  | [] => [lit "{}"]
  | _ :: _ =>
      [lit "{"; Json.newline_indent indent (S level)]
        ++ dict_items (lit "," ++ Json.newline_indent indent (S level))
             true items
        ++ [Json.newline_indent indent level; lit "}"]
  end.

(** The loop of [_iterencode_list] over values that are dicts: [buf],
    then the chunks of the value. *)
Fixpoint list_items (separator buf : pystr) (items : list (list pystr))
  : list pystr :=
  match items with
  | [] => []
  | value :: rest => [buf] ++ value ++ list_items separator separator rest
  end.

(** [_iterencode_list] *)
Definition iterencode_list (indent level : nat) (items : list (list pystr))
  : list pystr :=
  match items with
  | [] => [lit "[]"]
  | _ :: _ =>
      list_items (lit "," ++ Json.newline_indent indent (S level))
        (lit "[" ++ Json.newline_indent indent (S level)) items
        ++ [Json.newline_indent indent level; lit "]"]
  end.

Definition page_record (ensure_ascii : bool) (indent level : nat)
           (r : PageRecord) : list pystr :=
  iterencode_dict indent level
    [ (Json.encode_basestring ensure_ascii (lit "page"), [of_Z (page r)]);
      (Json.encode_basestring ensure_ascii (lit "content"),
       [Json.encode_basestring ensure_ascii (content r)]) ].

Definition file_result (ensure_ascii : bool) (indent level : nat)
           (r : FileResult) : list pystr :=
  match r with
  | Success text_content =>
      iterencode_list indent level
        (map (page_record ensure_ascii indent (S level)) text_content)
  | Failure message => [Json.encode_basestring ensure_ascii message]
  end.

(** [JSONEncoder(ensure_ascii=..., indent=...).iterencode(report)] *)
Definition report (ensure_ascii : bool) (indent : nat)
           (r : AnalysisReport) : list pystr :=
  iterencode_dict indent 0
    (map (fun kv => (Json.encode_basestring ensure_ascii (fst kv),
                     file_result ensure_ascii indent 1 (snd kv)))
         r).

End Iterencode.

(** [fp.write(chunk)] for the chunks in turn, on a file opened with
    [encoding='utf-8']: the text the file has taken, and whether every
    chunk was taken.  A chunk the codec refuses raises
    [UnicodeEncodeError]; the chunks before it stay in the file. *)
Fixpoint write_chunks (chunks : list pystr) : pystr * bool :=
  match chunks with
  | [] => ([], true)
  | chunk :: rest =>
      match Utf8.encode chunk with
      | None => ([], false)
      | Some _ => (chunk ++ fst (write_chunks rest), snd (write_chunks rest))
      end
  end.

(** How the call ends. *)
Inductive ending :=
| ReturnsReport
| RaisesUnicodeEncodeError.

(** What one run leaves behind: [returned] is [analysis_results] as the
    loop leaves it, the value of [return analysis_results] when the call
    gets there; [written] is the text the output file holds; [printed]
    is the console; [ends] tells whether the call returns or the write
    raises. *)
Record run := {
  returned : AnalysisReport;
  output_file : Path.t;
  written : pystr;
  printed : list pystr;
  ends : ending
}.

Definition analyze_pdf_files (lib : pdfplumber) (listing : list pystr)
  : run :=
  let pdf_files := glob_pdf base_path listing in
  let st := fold_left (process_file lib) pdf_files
              {| analysis_results := []; console := [] |} in
  let output := Path.joinpath (Path.parent base_path)
                  (lit "pdf_content_analysis.json") in
  let dump := write_chunks (Iterencode.report false 2 (analysis_results st)) in
  {| returned := analysis_results st;
     output_file := output;
     written := fst dump;
     printed :=
       console st
         ++ (if snd dump
             then [lit "Detailed analysis saved to: " ++ Path.str output]
             else []);
     ends := if snd dump then ReturnsReport else RaisesUnicodeEncodeError |}.

(* ================================================================= *)
(** ** Vocabulary for the statements *)

(** The exception that leaves the page loop, if one does: that of the
    first page whose extraction raises. *)
Fixpoint first_fault (pages : list page_outcome) : option pystr :=
  match pages with
  | [] => None
  | PageRaises e :: _ => Some e
  | _ :: rest => first_fault rest
  end.

(** The exception raised while opening the document or extracting its
    pages, if any. *)
Definition raised (o : open_outcome) : option pystr :=
  match o with
  | OpenRaises e => Some e
  | Opened pages => first_fault pages
  end.

(** Opening the document raises, or the extraction of some page would. *)
Definition faulty (o : open_outcome) : Prop :=
  match o with
  | OpenRaises _ => True
  | Opened pages => exists e, In (PageRaises e) pages
  end.

(** A page whose extraction yields empty or absent text. *)
Definition no_text (p : page_outcome) : Prop :=
  p = PageNone \/ p = PageText [].

(** The names [glob] keeps, in order. *)
Definition enumerated (listing : list pystr) : list pystr :=
  map Path.name (glob_pdf base_path listing).

(** The result for the file of a given name in the input directory. *)
Definition result_of (lib : pdfplumber) (name : pystr) : FileResult :=
  extract_pdf_text lib (Path.joinpath base_path name).

(** The state before the loop, and the loop over the files of given names. *)
Definition initial : loop_state :=
  {| analysis_results := []; console := [] |}.

Definition loop (lib : pdfplumber) (names : list pystr) (st : loop_state)
  : loop_state :=
  fold_left (process_file lib) (map (Path.joinpath base_path) names) st.

(** The block of console lines one file gives rise to. *)
Definition file_block (lib : pdfplumber) (pdf_file : Path.t) : list pystr :=
  [lit "Processing: " ++ Path.name pdf_file]
    ++ print_summary (extract_pdf_text lib pdf_file) ++ [[]].

Definition non_ascii (c : codepoint) : bool := (127 <? c)%N.

(** The non-ASCII characters of the strings a report holds, in the order
    the report holds them. *)
Definition non_ascii_of_result (r : FileResult) : pystr :=
  match r with
  | Success text_content =>
      flat_map (fun rec => filter non_ascii (content rec)) text_content
  | Failure message => filter non_ascii message
  end.

Definition non_ascii_of_report (report : AnalysisReport) : pystr :=
  flat_map (fun kv => filter non_ascii (fst kv)
                        ++ non_ascii_of_result (snd kv)) report.

(* ================================================================= *)
(** ** The document as indented lines *)

(** A second description of the JSON text, by lines: every line has a
    nesting depth, which decides its indentation, and a text.  It follows
    the layout the specification asks for and is compared with
    [Json.dumps] below. *)
Module Layout.

Definition line := (nat * pystr)%type.

(** A rendered value starts on the line it is put on and may go on
    over further lines. *)
Record block := { head : pystr; more : list line }.

Definition atom (text : pystr) : block := {| head := text; more := [] |}.

Definition continued (indent : nat) (ls : list line) : pystr :=
  flat_map (fun l => Json.newline_indent indent (fst l) ++ snd l) ls.

Definition block_text (indent : nat) (b : block) : pystr :=
  head b ++ continued indent (more b).

Fixpoint append_to_last (ls : list line) (suffix : pystr) : list line :=
  match ls with
  | [] => []
  | [l] => [(fst l, snd l ++ suffix)]
  | l :: rest => l :: append_to_last rest suffix
  end.

(** The block with [suffix] after its last character. *)
Definition with_suffix (b : block) (suffix : pystr) : block :=
  match more b with
  | [] => {| head := head b ++ suffix; more := [] |}
  | _ :: _ => {| head := head b; more := append_to_last (more b) suffix |}
  end.

(** The lines of the items of a container: each item starts a line at
    [depth], and all but the last end in a comma. *)
Fixpoint item_lines (depth : nat) (items : list block) : list line :=
  match items with
  | [] => []
  | [b] => (depth, head b) :: more b
  | b :: rest =>
      (depth, head (with_suffix b (lit ",")))
        :: more (with_suffix b (lit ",")) ++ item_lines depth rest
  end.

Definition container (opening closing : pystr) (level : nat)
           (items : list block) : block :=
  match items with
  | [] => atom (opening ++ closing)
  | _ :: _ =>
      {| head := opening;
         more := item_lines (S level) items ++ [(level, closing)] |}
  end.

Definition member (ensure_ascii : bool) (key : pystr) (value : block)
  : block :=
  {| head := Json.encode_basestring ensure_ascii key ++ lit ": "
               ++ head value;
     more := more value |}.

Definition page_record (ensure_ascii : bool) (level : nat)
           (r : PageRecord) : block :=
  container (lit "{") (lit "}") level
    [ member ensure_ascii (lit "page") (atom (of_Z (page r)));
      member ensure_ascii (lit "content")
        (atom (Json.encode_basestring ensure_ascii (content r))) ].

Definition file_result (ensure_ascii : bool) (level : nat)
           (r : FileResult) : block :=
  match r with
  | Success text_content =>
      container (lit "[") (lit "]") level
        (map (page_record ensure_ascii (S level)) text_content)
  | Failure message => atom (Json.encode_basestring ensure_ascii message)
  end.

Definition report_block (ensure_ascii : bool) (report : AnalysisReport)
  : block :=
  container (lit "{") (lit "}") 0
    (map (fun kv => member ensure_ascii (fst kv)
                      (file_result ensure_ascii 1 (snd kv)))
         report).

(** The lines of the document. *)
Definition lines (ensure_ascii : bool) (report : AnalysisReport)
  : list line :=
  (0, head (report_block ensure_ascii report))
    :: more (report_block ensure_ascii report).

(** The text of a list of lines: each indented by [indent] blanks per
    level of depth, with a line feed between two lines. *)
Definition render (indent : nat) (ls : list line) : pystr :=
  Json.join [10%N]
    (map (fun l => repeat 32%N (indent * fst l) ++ snd l) ls).

(** A text that can stand on a line after its indentation: it starts
    with a character other than a blank and holds no line feed. *)
Definition inline (text : pystr) : Prop :=
  (exists c rest, text = c :: rest /\ c <> 32%N) /\ ~ In 10%N text.

(** A line no deeper than [deepest] whose text can stand on a line. *)
Definition line_ok (deepest : nat) (l : line) : Prop :=
  fst l <= deepest /\ inline (snd l).

Definition tidy (deepest : nat) (b : block) : Prop :=
  inline (head b) /\ Forall (line_ok deepest) (more b).

End Layout.

(* ================================================================= *)
(** ** Sample documents *)

Module Sample.

(** [a.pdf]: a page of text, an empty page, a page of blanks, a page
    without a text layer, a page with an accented letter; every other
    file is unreadable. *)
Definition a_pages : list page_outcome :=
  [ PageText (lit " Hola "); PageText []; PageText (lit "  ");
    PageNone; PageText (lit "a" ++ [241%N] ++ lit "o") ].

Definition lib : pdfplumber := fun p =>
  if PyStr.eqb (Path.name p) (lit "a.pdf") then Opened a_pages
  else if PyStr.eqb (Path.name p) (lit "empty.pdf")
  then Opened [PageNone; PageText []]
  else if PyStr.eqb (Path.name p) (lit "blank.pdf")
  then Opened [PageText (lit " ")]
  else if PyStr.eqb (Path.name p) (lit "long.pdf")
  then Opened [PageText (repeat 120%N 201)]
  else if PyStr.eqb (Path.name p) (lit "torn.pdf")
  then Opened [PageText (lit "one"); PageRaises (lit "bad xref")]
  else OpenRaises (lit "No /Root object").

(** The same library, except on a file the directory does not hold. *)
Definition lib' : pdfplumber := fun p =>
  if PyStr.eqb (Path.name p) (lit "elsewhere.pdf") then Opened []
  else lib p.

Definition listing : list pystr :=
  map lit ["a.pdf"; "notes.txt"; "b.pdf"; "empty.pdf"; "long.pdf";
           "torn.pdf"]%string.

Definition file (name : string) : Path.t :=
  Path.joinpath base_path (lit name).

End Sample.

(* ================================================================= *)
(** ** Further vocabulary *)

(** A page whose text passes the test [if page_text]. *)
Definition has_text (p : page_outcome) : bool :=
  match p with
  | PageText text => truthy text
  | _ => false
  end.

(** A string of whitespace only. *)
Definition blank (s : pystr) : Prop := Forall (fun c => isspace c = true) s.

(** The line that closes the console log. *)
Definition saved_line : pystr :=
  lit "Detailed analysis saved to: /Users/aldoruizluna/labspace/ec0249/reference/pdf_content_analysis.json".

(** A Unicode scalar value: a code point that is not a surrogate. *)
Definition scalar (c : codepoint) : bool :=
  ((c <? 1114112) && negb ((55296 <=? c) && (c <=? 57343)))%N.

(** The characters of the strings a report holds: keys, contents and
    messages. *)
Definition report_chars (report : AnalysisReport) : pystr :=
  flat_map (fun kv =>
              fst kv ++ match snd kv with
                        | Success text_content =>
                            flat_map content text_content
                        | Failure message => message
                        end)
           report.

(** [needle in hay], computed. *)
Fixpoint occurs (needle hay : pystr) : bool :=
  startswith needle hay
  || match hay with
     | [] => false
     | _ :: rest => occurs needle rest
     end.

Module Scenario.

(** A library for which the only page of [a.pdf] holds a lone surrogate
    and every other file one page of plain text. *)
Definition surrogate : pdfplumber := fun p =>
  if PyStr.eqb (Path.name p) (lit "a.pdf")
  then Opened [PageText [55357%N]]
  else Opened [PageText (lit "ok")].

Definition two_files : list pystr := [lit "a.pdf"; lit "b.pdf"].

(** A library that reads [a.pdf] like the sample one and finds every
    other file empty but readable. *)
Definition lenient : pdfplumber := fun p =>
  if PyStr.eqb (Path.name p) (lit "a.pdf") then Opened Sample.a_pages
  else Opened [].

(** A library for which every document starts with two pages without
    text. *)
Definition late : pdfplumber := fun _ =>
  Opened [PageNone; PageText []; PageText (lit " x ")].

(** A directory without a name that ends in [.pdf]. *)
Definition no_pdfs : list pystr :=
  map lit ["notes.txt"; "SCAN.PDF"; "pdf"; "a.pdf.bak"]%string.

End Scenario.

(* ================================================================= *)
(** ** Strings and paths *)

Lemma eqb_eq (a b : pystr) : PyStr.eqb a b = true <-> a = b.
Proof.
  unfold PyStr.eqb. destruct (list_eq_dec N.eq_dec a b); split; congruence.
Qed.

Lemma eqb_refl (a : pystr) : PyStr.eqb a a = true.
Proof. now apply eqb_eq. Qed.

Lemma eqb_neq (a b : pystr) : PyStr.eqb a b = false <-> a <> b.
Proof.
  unfold PyStr.eqb. destruct (list_eq_dec N.eq_dec a b); split; congruence.
Qed.

Lemma name_joinpath (dir : Path.t) (child : pystr) :
  Path.name (Path.joinpath dir child) = child.
Proof. unfold Path.name, Path.joinpath. simpl. apply last_last. Qed.

Lemma parent_joinpath (dir : Path.t) (child : pystr) :
  Path.parent (Path.joinpath dir child) = dir.
Proof.
  destruct dir as [ps]. unfold Path.parent, Path.joinpath. simpl.
  now rewrite removelast_last.
Qed.

Lemma str_parts (ps : list pystr) :
  ps <> [] ->
  Path.str (Path.mk ps) = flat_map (fun c => lit "/" ++ c) ps.
Proof. destruct ps; [congruence | reflexivity]. Qed.

Lemma str_joinpath (dir : Path.t) (child : pystr) :
  Path.str (Path.joinpath dir child)
  = flat_map (fun c => lit "/" ++ c) (Path.parts dir) ++ lit "/" ++ child.
Proof.
  unfold Path.joinpath. rewrite str_parts.
  - rewrite flat_map_app. simpl. now rewrite app_nil_r.
  - now destruct (Path.parts dir).
Qed.

Lemma contains_refl_suffix (pre s : pystr) : contains s (pre ++ s).
Proof. exists pre, []. now rewrite app_nil_r. Qed.

Lemma contains_app_l (needle hay more : pystr) :
  contains needle hay -> contains needle (more ++ hay).
Proof.
  intros (pre & post & ->). exists (more ++ pre), post.
  now rewrite app_assoc.
Qed.

Lemma contains_app_r (needle hay more : pystr) :
  contains needle hay -> contains needle (hay ++ more).
Proof.
  intros (pre & post & ->). exists pre, (post ++ more).
  now rewrite <- !app_assoc.
Qed.

(* ================================================================= *)
(** ** The page loop *)

(** What was gathered before the loop is a prefix of what it returns. *)
Lemma extract_pages_acc (pages : list page_outcome) :
  forall page_num acc,
    extract_pages page_num pages acc
    = match extract_pages page_num pages [] with
      | Returns recs => Returns (acc ++ recs)
      | Raises e => Raises e
      end.
Proof.
  induction pages as [|p rest IH]; intros page_num acc; simpl.
  - now rewrite app_nil_r.
  - destruct p as [text| |e]; auto.
    destruct (truthy text); auto.
    rewrite (IH _ (acc ++ _)), (IH _ [_]).
    destruct (extract_pages (page_num + 1) rest []); auto.
    now rewrite <- app_assoc.
Qed.

(** One step of the loop on a page that is kept. *)
Lemma extract_pages_keep page_num text rest :
  truthy text = true ->
  extract_pages page_num (PageText text :: rest) []
  = match extract_pages (page_num + 1) rest [] with
    | Returns recs =>
        Returns ({| page := page_num; content := strip text |} :: recs)
    | Raises e => Raises e
    end.
Proof.
  intros T. simpl. rewrite T, extract_pages_acc.
  now destruct (extract_pages (page_num + 1) rest []).
Qed.

Lemma truthy_true (s : pystr) : truthy s = true <-> s <> [].
Proof. destruct s; simpl; split; congruence. Qed.

(** The loop raises exactly the first exception of the pages. *)
Lemma extract_pages_raises pages : forall page_num acc e,
  first_fault pages = Some e ->
  extract_pages page_num pages acc = Raises e.
Proof.
  induction pages as [|p rest IH]; intros page_num acc e; simpl.
  - discriminate.
  - destruct p as [text| |e']; try (intros; now apply IH).
    + destruct (truthy text); intros; now apply IH.
    + congruence.
Qed.

(** Without an exception the loop runs to its end. *)
Lemma extract_pages_returns pages : forall page_num acc,
  first_fault pages = None ->
  exists recs, extract_pages page_num pages acc = Returns recs.
Proof.
  induction pages as [|p rest IH]; intros page_num acc; simpl.
  - eauto.
  - destruct p as [text| |e']; try (intros; now apply IH).
    + destruct (truthy text); intros; now apply IH.
    + discriminate.
Qed.

(** Every record comes from the page at its number, counted from the
    start of the loop, and every page with text leaves its record. *)
Lemma extract_pages_In pages : forall page_num recs,
  extract_pages page_num pages [] = Returns recs ->
  forall r, In r recs <->
    exists i text, nth_error pages i = Some (PageText text)
                   /\ text <> []
                   /\ r = {| page := page_num + Z.of_nat i;
                             content := strip text |}.
Proof.
  induction pages as [|p rest IH]; intros page_num recs H r.
  - simpl in H. injection H as <-. split; [intros []|].
    intros ([|i] & text & E & _); discriminate.
  - assert (SHIFT : forall recs',
      extract_pages (page_num + 1) rest [] = Returns recs' ->
      (In r recs' <->
       exists i text, nth_error (p :: rest) (S i) = Some (PageText text)
                      /\ text <> []
                      /\ r = {| page := page_num + Z.of_nat (S i);
                                content := strip text |})).
    { intros recs' H'. rewrite (IH _ _ H' r).
      split; intros (i & text & E & NE & ->); exists i, text;
        repeat split; auto; f_equal; lia. }
    destruct p as [text| |e].
    + destruct (truthy text) eqn:T.
      * rewrite extract_pages_keep in H by exact T.
        destruct (extract_pages (page_num + 1) rest []) as [recs'|] eqn:H';
          [|discriminate].
        injection H as <-. simpl. rewrite (SHIFT _ eq_refl). split.
        -- intros [<-|(i & text' & E & NE & ->)].
           ++ exists 0%nat, text. repeat split; auto.
              ** now apply truthy_true.
              ** f_equal. lia.
           ++ exists (S i), text'. auto.
        -- intros ([|i] & text' & E & NE & ->).
           ++ left. simpl in E. injection E as <-. f_equal. lia.
           ++ right. exists i, text'. auto.
      * simpl in H. rewrite T in H. rewrite (SHIFT _ H). split.
        -- intros (i & text' & E & NE & ->). exists (S i), text'. auto.
        -- intros ([|i] & text' & E & NE & ->).
           ++ simpl in E. injection E as <-.
              apply truthy_true in NE. congruence.
           ++ exists i, text'. auto.
    + simpl in H. rewrite (SHIFT _ H). split.
      * intros (i & text' & E & NE & ->). exists (S i), text'. auto.
      * intros ([|i] & text' & E & NE & ->); [discriminate|].
        exists i, text'. auto.
    + discriminate.
Qed.

(** Page numbers start at the loop's first number and go up. *)
Lemma extract_pages_sorted pages : forall page_num recs,
  extract_pages page_num pages [] = Returns recs ->
  Forall (fun r => page_num <= page r)%Z recs
  /\ StronglySorted Z.lt (map page recs).
Proof.
  induction pages as [|p rest IH]; intros page_num recs H.
  - simpl in H. injection H as <-. split; constructor.
  - assert (LATER : forall recs',
      extract_pages (page_num + 1) rest [] = Returns recs' ->
      Forall (fun r => page_num < page r)%Z recs'
      /\ StronglySorted Z.lt (map page recs')).
    { intros recs' H'. destruct (IH _ _ H') as [LB SS]. split; auto.
      eapply Forall_impl; [|exact LB]. simpl. intros; lia. }
    destruct p as [text| |e]; try discriminate.
    + destruct (truthy text) eqn:T.
      * rewrite extract_pages_keep in H by exact T.
        destruct (extract_pages (page_num + 1) rest []) as [recs'|] eqn:H';
          [|discriminate].
        injection H as <-. destruct (LATER _ eq_refl) as [LB SS]. split.
        -- constructor; [simpl; lia|].
           eapply Forall_impl; [|exact LB]. simpl. intros; lia.
        -- simpl. constructor; auto. now apply Forall_map.
      * simpl in H. rewrite T in H. destruct (LATER _ H) as [LB SS].
        split; auto. eapply Forall_impl; [|exact LB]. simpl. intros; lia.
    + simpl in H. destruct (LATER _ H) as [LB SS].
      split; auto. eapply Forall_impl; [|exact LB]. simpl. intros; lia.
Qed.

Lemma first_fault_In pages :
  (exists e, In (PageRaises e) pages) -> exists e, first_fault pages = Some e.
Proof.
  induction pages as [|p rest IH]; intros (e & I); [destruct I|].
  destruct p as [text| |e']; simpl; eauto.
  - destruct I as [?|I]; [discriminate | eauto].
  - destruct I as [?|I]; [discriminate | eauto].
Qed.

(** When something can raise, something is raised. *)
Lemma faulty_raised (o : open_outcome) :
  faulty o -> exists e, raised o = Some e.
Proof.
  destruct o as [e|pages]; simpl; [eauto | apply first_fault_In].
Qed.

(** [extract_pdf_text] in terms of what the library does with the file. *)
Lemma extract_pdf_text_raised lib pdf_path e :
  raised (lib pdf_path) = Some e ->
  extract_pdf_text lib pdf_path = Failure (error_message pdf_path e).
Proof.
  unfold extract_pdf_text, try_extract, raised.
  destruct (lib pdf_path) as [e'|pages].
  - now intros [= ->].
  - intros H. now rewrite (extract_pages_raises _ _ _ H).
Qed.

Lemma extract_pdf_text_success lib pdf_path recs :
  extract_pdf_text lib pdf_path = Success recs ->
  exists pages, lib pdf_path = Opened pages
                /\ first_fault pages = None
                /\ extract_pages 1 pages [] = Returns recs.
Proof.
  unfold extract_pdf_text, try_extract.
  destruct (lib pdf_path) as [e'|pages]; [discriminate|].
  destruct (extract_pages 1 pages []) as [recs'|e] eqn:E; [|discriminate].
  intros [= <-]. exists pages. repeat split; auto.
  destruct (first_fault pages) as [e|] eqn:FF; auto.
  rewrite (extract_pages_raises _ _ _ FF) in E. discriminate.
Qed.

Lemma extract_pdf_text_total lib pdf_path :
  raised (lib pdf_path) = None ->
  exists recs, extract_pdf_text lib pdf_path = Success recs.
Proof.
  unfold extract_pdf_text, try_extract, raised.
  destruct (lib pdf_path) as [e'|pages]; [discriminate|].
  intros H. destruct (extract_pages_returns pages 1 [] H) as [recs ->].
  eauto.
Qed.

(* ================================================================= *)
(** ** The dict *)

Lemma dict_get_set_same d k v : dict_get (dict_set d k v) k = Some v.
Proof.
  induction d as [|[k' v'] rest IH]; simpl.
  - now rewrite eqb_refl.
  - destruct (PyStr.eqb k' k) eqn:E; simpl; now rewrite E.
Qed.

Lemma dict_get_set_other d k v k' :
  k' <> k -> dict_get (dict_set d k v) k' = dict_get d k'.
Proof.
  intros NE. induction d as [|[k0 v0] rest IH]; simpl.
  - destruct (PyStr.eqb k k') eqn:E; auto.
    apply eqb_eq in E. congruence.
  - destruct (PyStr.eqb k0 k) eqn:E; simpl.
    + apply eqb_eq in E. subst k0.
      destruct (PyStr.eqb k k') eqn:E'; auto.
      apply eqb_eq in E'. congruence.
    + now rewrite IH.
Qed.

(** Assigning to a key that is there keeps the keys; assigning to a new
    key puts it last. *)
Lemma dict_keys_set_old d k v :
  In k (dict_keys d) -> dict_keys (dict_set d k v) = dict_keys d.
Proof.
  induction d as [|[k' v'] rest IH]; simpl; [intros []|].
  destruct (PyStr.eqb k' k) eqn:E; auto.
  apply eqb_neq in E. intros [?|I]; [congruence|].
  simpl. f_equal. now apply IH.
Qed.

Lemma dict_keys_set_new d k v :
  ~ In k (dict_keys d) -> dict_keys (dict_set d k v) = dict_keys d ++ [k].
Proof.
  induction d as [|[k' v'] rest IH]; simpl; auto.
  destruct (PyStr.eqb k' k) eqn:E.
  - apply eqb_eq in E. tauto.
  - intros NI. simpl. f_equal. apply IH. tauto.
Qed.

Lemma dict_keys_set_In d k v k' :
  In k' (dict_keys (dict_set d k v)) <-> k' = k \/ In k' (dict_keys d).
Proof.
  destruct (in_dec (list_eq_dec N.eq_dec) k (dict_keys d)) as [I|I].
  - rewrite dict_keys_set_old by exact I. split; auto. intros [->|]; auto.
  - rewrite dict_keys_set_new by exact I.
    rewrite in_app_iff. simpl. intuition congruence.
Qed.

Lemma dict_keys_set_NoDup d k v :
  NoDup (dict_keys d) -> NoDup (dict_keys (dict_set d k v)).
Proof.
  intros ND.
  destruct (in_dec (list_eq_dec N.eq_dec) k (dict_keys d)) as [I|I].
  - now rewrite dict_keys_set_old.
  - rewrite dict_keys_set_new by exact I.
    apply NoDup_app; auto.
    + repeat constructor. intros [].
    + intros x Hx [<-|[]]. contradiction.
Qed.

Lemma dict_get_In d k v :
  dict_get d k = Some v -> In (k, v) d.
Proof.
  induction d as [|[k' v'] rest IH]; simpl; [discriminate|].
  destruct (PyStr.eqb k' k) eqn:E.
  - apply eqb_eq in E. intros [= ->]. left. congruence.
  - auto.
Qed.

Lemma dict_set_In d k v k0 v0 :
  In (k0, v0) (dict_set d k v) -> (k0 = k /\ v0 = v) \/ In (k0, v0) d.
Proof.
  induction d as [|[k' v'] rest IH]; simpl.
  - intros [[= <- <-]|[]]. auto.
  - destruct (PyStr.eqb k' k) eqn:E; simpl.
    + apply eqb_eq in E. subst k'. intros [[= <- <-]|I]; auto.
    + intros [[= <- <-]|I]; auto. destruct (IH I); auto.
Qed.

(* ================================================================= *)
(** ** The file loop *)

Lemma enumerated_filter listing :
  enumerated listing = filter (endswith (lit ".pdf")) listing.
Proof.
  unfold enumerated, glob_pdf. rewrite map_map.
  rewrite (map_ext _ (fun x => x)) by (intros; apply name_joinpath).
  apply map_id.
Qed.

Lemma glob_pdf_enumerated listing :
  glob_pdf base_path listing
  = map (Path.joinpath base_path) (enumerated listing).
Proof. now rewrite enumerated_filter. Qed.

Section Loop.

Variable lib : pdfplumber.

Local Abbreviation loop := (loop lib).
Local Abbreviation result_of := (result_of lib).

Lemma loop_cons name names st :
  loop (name :: names) st
  = loop names
      {| analysis_results :=
           dict_set (analysis_results st) name (result_of name);
         console :=
           console st ++ file_block lib (Path.joinpath base_path name) |}.
Proof.
  unfold loop, process_file, file_block, result_of. simpl.
  now rewrite name_joinpath.
Qed.

Lemma loop_console names : forall st,
  console (loop names st)
  = console st
      ++ flat_map (file_block lib) (map (Path.joinpath base_path) names).
Proof.
  induction names as [|n rest IH]; intros st.
  - simpl. now rewrite app_nil_r.
  - rewrite loop_cons, IH. cbn [console map flat_map].
    now rewrite <- app_assoc.
Qed.

Lemma loop_get_other names : forall st k,
  ~ In k names ->
  dict_get (analysis_results (loop names st)) k
  = dict_get (analysis_results st) k.
Proof.
  induction names as [|n rest IH]; intros st k NI; auto.
  rewrite loop_cons, IH by (simpl in NI; tauto).
  cbn [analysis_results]. apply dict_get_set_other.
  simpl in NI. intros ->. tauto.
Qed.

Lemma loop_get names : forall st k,
  In k names ->
  dict_get (analysis_results (loop names st)) k = Some (result_of k).
Proof.
  induction names as [|n rest IH]; intros st k I; [destruct I|].
  rewrite loop_cons.
  destruct (in_dec (list_eq_dec N.eq_dec) k rest) as [I'|NI'].
  - now apply IH.
  - destruct I as [->|I]; [|contradiction].
    rewrite loop_get_other by exact NI'.
    cbn [analysis_results]. apply dict_get_set_same.
Qed.

Lemma loop_keys_In names : forall st k,
  In k (dict_keys (analysis_results (loop names st)))
  <-> In k (dict_keys (analysis_results st)) \/ In k names.
Proof.
  induction names as [|n rest IH]; intros st k.
  - simpl. tauto.
  - rewrite loop_cons, IH. cbn [analysis_results].
    rewrite dict_keys_set_In. simpl. intuition congruence.
Qed.

Lemma loop_keys_NoDup names : forall st,
  NoDup (dict_keys (analysis_results st)) ->
  NoDup (dict_keys (analysis_results (loop names st))).
Proof.
  induction names as [|n rest IH]; intros st ND; auto.
  rewrite loop_cons. apply IH. cbn [analysis_results].
  now apply dict_keys_set_NoDup.
Qed.

(** Names met for the first time are appended in the order met. *)
Lemma loop_keys_fresh names : forall st,
  NoDup (dict_keys (analysis_results st) ++ names) ->
  dict_keys (analysis_results (loop names st))
  = dict_keys (analysis_results st) ++ names.
Proof.
  induction names as [|n rest IH]; intros st ND.
  - simpl. now rewrite app_nil_r.
  - rewrite loop_cons, IH; cbn [analysis_results].
    + rewrite dict_keys_set_new; [now rewrite <- app_assoc|].
      apply NoDup_remove_2 in ND. rewrite in_app_iff in ND. tauto.
    + rewrite dict_keys_set_new.
      * now rewrite <- app_assoc.
      * apply NoDup_remove_2 in ND. rewrite in_app_iff in ND. tauto.
Qed.

(** Every entry holds what [extract_pdf_text] returned for its key. *)
Lemma loop_entries names : forall st,
  (forall k v, In (k, v) (analysis_results st) -> v = result_of k) ->
  forall k v, In (k, v) (analysis_results (loop names st)) ->
              v = result_of k.
Proof.
  induction names as [|n rest IH]; intros st INV k v; [apply INV|].
  rewrite loop_cons. apply IH. cbn [analysis_results].
  intros k0 v0 I. destruct (dict_set_In _ _ _ _ _ I) as [[-> ->]|I'];
    auto.
Qed.

End Loop.

Lemma returned_loop lib listing :
  returned (analyze_pdf_files lib listing)
  = analysis_results (loop lib (enumerated listing) initial).
Proof.
  unfold analyze_pdf_files, loop. cbn [returned].
  now rewrite glob_pdf_enumerated.
Qed.

Lemma returned_get lib listing name :
  In name (enumerated listing) ->
  dict_get (returned (analyze_pdf_files lib listing)) name
  = Some (result_of lib name).
Proof. intros I. rewrite returned_loop. now apply loop_get. Qed.

Lemma returned_entries lib listing :
  returned (analyze_pdf_files lib listing)
  = map (fun k => (k, result_of lib k))
        (dict_keys (returned (analyze_pdf_files lib listing))).
Proof.
  rewrite returned_loop.
  assert (INV : forall k v,
    In (k, v) (analysis_results (loop lib (enumerated listing) initial)) ->
    v = result_of lib k).
  { apply loop_entries. intros k v []. }
  revert INV.
  generalize (analysis_results (loop lib (enumerated listing) initial)) as d.
  induction d as [|[k v] rest IH]; intros INV; simpl; auto.
  rewrite <- IH by (intros; apply INV; now right).
  now rewrite (INV k v) by now left.
Qed.

Lemma printed_blocks lib listing :
  printed (analyze_pdf_files lib listing)
  = flat_map (file_block lib) (glob_pdf base_path listing)
      ++ (if snd (write_chunks
                    (Iterencode.report false 2
                       (returned (analyze_pdf_files lib listing))))
          then [saved_line] else []).
Proof.
  unfold analyze_pdf_files. cbn [printed returned].
  rewrite glob_pdf_enumerated.
  change (fold_left (process_file lib)
            (map (Path.joinpath base_path) (enumerated listing))
            {| analysis_results := []; console := [] |})
    with (loop lib (enumerated listing) initial).
  rewrite loop_console. reflexivity.
Qed.

(** The lines of a processed file are on the console, in one piece. *)
Lemma printed_block lib listing pdf_file :
  In pdf_file (glob_pdf base_path listing) ->
  exists before after,
    printed (analyze_pdf_files lib listing)
    = before ++ file_block lib pdf_file ++ after.
Proof.
  intros I. rewrite printed_blocks.
  destruct (in_split _ _ I) as (l1 & l2 & ->).
  rewrite flat_map_app. cbn [flat_map].
  exists (flat_map (file_block lib) l1).
  eexists. rewrite <- !app_assoc. reflexivity.
Qed.

Lemma glob_pdf_In listing pdf_file :
  In pdf_file (glob_pdf base_path listing) ->
  In (Path.name pdf_file) (enumerated listing)
  /\ pdf_file = Path.joinpath base_path (Path.name pdf_file).
Proof.
  intros I. split; [now apply in_map|].
  unfold glob_pdf in I. apply in_map_iff in I. destruct I as (n & <- & _).
  now rewrite name_joinpath.
Qed.

Lemma returned_get_file lib listing pdf_file :
  In pdf_file (glob_pdf base_path listing) ->
  dict_get (returned (analyze_pdf_files lib listing)) (Path.name pdf_file)
  = Some (extract_pdf_text lib pdf_file).
Proof.
  intros I. destruct (glob_pdf_In _ _ I) as [IN EQ].
  rewrite (returned_get lib _ _ IN). unfold result_of. now rewrite <- EQ.
Qed.

(** A path shows its last component. *)
Lemma str_contains_name (p : Path.t) : contains (Path.name p) (Path.str p).
Proof.
  destruct p as [ps]. destruct ps as [|c ps'] using rev_ind.
  - exists (lit "/"), []. reflexivity.
  - change (Path.mk (ps' ++ [c])) with (Path.joinpath (Path.mk ps') c).
    rewrite name_joinpath, str_joinpath.
    apply contains_app_l, contains_app_l. exists [], [].
    now rewrite app_nil_r.
Qed.

Lemma error_message_shows (pdf_path : Path.t) (e : pystr) :
  contains (Path.name pdf_path) (error_message pdf_path e)
  /\ contains e (error_message pdf_path e).
Proof.
  unfold error_message. split.
  - apply contains_app_l, contains_app_r, str_contains_name.
  - rewrite !app_assoc. apply contains_refl_suffix.
Qed.

(** The records of a result are the pages with text, each under its
    position in the document. *)
Lemma extract_pdf_text_records lib pdf_path recs :
  extract_pdf_text lib pdf_path = Success recs ->
  exists pages,
    lib pdf_path = Opened pages
    /\ forall r,
         In r recs <->
         exists i text,
           nth_error pages i = Some (PageText text)
           /\ text <> []
           /\ r = {| page := Z.of_nat i + 1; content := strip text |}.
Proof.
  intros H. destruct (extract_pdf_text_success _ _ H) as (pages & O & _ & E).
  exists pages. split; auto. intros r.
  rewrite (extract_pages_In _ _ E r).
  split; intros (i & text & N & NE & ->); exists i, text;
    repeat split; auto; f_equal; lia.
Qed.

(* ================================================================= *)
(** ** The extractor adapter *)

(** C1.  When opening the document raises, or the extraction of a page
    does, the result of [extract_pdf_text] is the error string and not a
    list: it is built from the path and from the exception that was
    raised, so it holds the file's name and the exception's text and
    nothing of the pages read before; the report of a run stores that
    string under the file's name, and JSON renders it as a string. *)
Theorem extract_pdf_text_fault_is_error_string
        (lib : pdfplumber) (pdf_path : Path.t) :
  faulty (lib pdf_path) ->
  exists e message,
    raised (lib pdf_path) = Some e
    /\ extract_pdf_text lib pdf_path = Failure message
    /\ message = error_message pdf_path e
    /\ contains (Path.name pdf_path) message
    /\ contains e message
    /\ isinstance_list (extract_pdf_text lib pdf_path) = false
    /\ (forall recs, extract_pdf_text lib pdf_path <> Success recs)
    /\ (forall listing,
          In pdf_path (glob_pdf base_path listing) ->
          dict_get (returned (analyze_pdf_files lib listing))
                   (Path.name pdf_path)
          = Some (Failure message))
    /\ Json.file_result false 2 1 (extract_pdf_text lib pdf_path)
       = [34%N] ++ flat_map (Json.escape_char false) message ++ [34%N].
Proof.
  intros F. destruct (faulty_raised _ F) as [e R].
  exists e, (error_message pdf_path e).
  pose proof (extract_pdf_text_raised lib pdf_path R) as E.
  destruct (error_message_shows pdf_path e) as [C1 C2].
  rewrite E. repeat split; auto.
  - discriminate.
  - intros listing I. now rewrite returned_get_file, E.
Qed.

Lemma extract_pdf_text_fault_is_error_string_witness :
  exists e message,
    raised (Sample.lib (Sample.file "torn.pdf")) = Some e
    /\ extract_pdf_text Sample.lib (Sample.file "torn.pdf") = Failure message
    /\ message = error_message (Sample.file "torn.pdf") e
    /\ contains (Path.name (Sample.file "torn.pdf")) message
    /\ contains e message
    /\ isinstance_list (extract_pdf_text Sample.lib (Sample.file "torn.pdf"))
       = false
    /\ (forall recs,
          extract_pdf_text Sample.lib (Sample.file "torn.pdf")
          <> Success recs)
    /\ (forall listing,
          In (Sample.file "torn.pdf") (glob_pdf base_path listing) ->
          dict_get (returned (analyze_pdf_files Sample.lib listing))
                   (Path.name (Sample.file "torn.pdf"))
          = Some (Failure message))
    /\ Json.file_result false 2 1
         (extract_pdf_text Sample.lib (Sample.file "torn.pdf"))
       = [34%N] ++ flat_map (Json.escape_char false) message ++ [34%N].
Proof.
  apply (@extract_pdf_text_fault_is_error_string
           Sample.lib (Sample.file "torn.pdf")).
  exists (lit "bad xref"). right. now left.
Defined.

(** The message of the sample file torn on its second page. *)
Example message_of_torn_file :
  extract_pdf_text Sample.lib (Sample.file "torn.pdf")
  = Failure (lit "Error extracting from /Users/aldoruizluna/labspace/ec0249/reference/raw/torn.pdf: bad xref").
Proof. reflexivity. Qed.

(** C4.  In the list a file is processed to, every page number is at least
    1 and the numbers go strictly up along the list, hence without
    repetition. *)
Theorem page_numbers_start_at_one_and_increase
        (lib : pdfplumber) (pdf_path : Path.t) (recs : list PageRecord) :
  extract_pdf_text lib pdf_path = Success recs ->
  Forall (fun r => 1 <= page r)%Z recs
  /\ StronglySorted Z.lt (map page recs)
  /\ NoDup (map page recs)
  /\ (forall i j ri rj,
        (i < j)%nat ->
        nth_error recs i = Some ri -> nth_error recs j = Some rj ->
        (page ri < page rj)%Z).
Proof.
  intros H. destruct (extract_pdf_text_success _ _ H) as (pages & _ & _ & E).
  destruct (extract_pages_sorted _ _ E) as [LB SS].
  assert (PAIR : forall i j ri rj,
            (i < j)%nat ->
            nth_error recs i = Some ri -> nth_error recs j = Some rj ->
            (page ri < page rj)%Z).
  { clear - SS. induction recs as [|r rest IH]; intros i j ri rj LT Hi Hj.
    - destruct i; discriminate.
    - simpl in SS. apply StronglySorted_inv in SS. destruct SS as [SS ALL].
      destruct j as [|j]; [lia|]. simpl in Hj.
      destruct i as [|i].
      + simpl in Hi. injection Hi as <-.
        rewrite Forall_forall in ALL. apply ALL.
        apply in_map. eapply nth_error_In; eauto.
      + simpl in Hi. apply (IH SS i j); auto. lia. }
  repeat split; auto.
  clear - SS. induction (map page recs) as [|a l IH]; constructor.
  - apply StronglySorted_inv in SS. destruct SS as [_ ALL].
    intros I. rewrite Forall_forall in ALL. specialize (ALL _ I). lia.
  - apply IH. now apply StronglySorted_inv in SS.
Qed.

Lemma page_numbers_start_at_one_and_increase_witness :
  let recs := [ {| page := 1; content := lit "Hola" |};
                {| page := 3; content := [] |};
                {| page := 5; content := lit "a" ++ [241%N] ++ lit "o" |} ] in
  Forall (fun r => 1 <= page r)%Z recs
  /\ StronglySorted Z.lt (map page recs)
  /\ NoDup (map page recs)
  /\ (forall i j ri rj,
        (i < j)%nat ->
        nth_error recs i = Some ri -> nth_error recs j = Some rj ->
        (page ri < page rj)%Z).
Proof.
  apply (@page_numbers_start_at_one_and_increase
           Sample.lib (Sample.file "a.pdf")).
  reflexivity.
Defined.

(** C10.  A record carries the position its page has in the document,
    counted from 1 over all pages, whether kept or not: the records are
    exactly the pages with text, each under its own position. *)
Theorem page_number_is_document_position
        (lib : pdfplumber) (pdf_path : Path.t) (recs : list PageRecord) :
  extract_pdf_text lib pdf_path = Success recs ->
  exists pages,
    lib pdf_path = Opened pages
    /\ forall r,
         In r recs <->
         exists i text,
           nth_error pages i = Some (PageText text)
           /\ text <> []
           /\ r = {| page := Z.of_nat i + 1; content := strip text |}.
Proof. apply extract_pdf_text_records. Qed.

Lemma page_number_is_document_position_witness :
  exists pages,
    Sample.lib (Sample.file "a.pdf") = Opened pages
    /\ forall r,
         In r [ {| page := 1; content := lit "Hola" |};
                {| page := 3; content := [] |};
                {| page := 5; content := lit "a" ++ [241%N] ++ lit "o" |} ]
         <->
         exists i text,
           nth_error pages i = Some (PageText text)
           /\ text <> []
           /\ r = {| page := Z.of_nat i + 1; content := strip text |}.
Proof.
  apply (@page_number_is_document_position
           Sample.lib (Sample.file "a.pdf")).
  reflexivity.
Defined.

(** C5.  A page whose extraction gives no text or the empty text leaves
    no record: its number is absent from the result.  So the numbers of a
    result can have gaps, as in the sample document, whose result holds
    pages 1, 3 and 5 of five. *)
Theorem page_without_text_is_skipped :
  (forall (lib : pdfplumber) (pdf_path : Path.t) pages recs i p,
      lib pdf_path = Opened pages ->
      extract_pdf_text lib pdf_path = Success recs ->
      nth_error pages i = Some p ->
      no_text p ->
      ~ In (Z.of_nat i + 1)%Z (map page recs))
  /\ (exists (lib : pdfplumber) (pdf_path : Path.t) recs,
         extract_pdf_text lib pdf_path = Success recs
         /\ map page recs = [1; 3; 5]%Z).
Proof.
  split.
  - intros lib pdf_path pages recs i p O H N NT I.
    apply in_map_iff in I. destruct I as (r & P & I).
    destruct (extract_pdf_text_records _ _ H) as (pages' & O' & M).
    rewrite O in O'. injection O' as <-.
    apply M in I. destruct I as (j & text & Nj & NE & ->).
    simpl in P. assert (j = i) by lia. subst j.
    rewrite N in Nj. injection Nj as ->.
    destruct NT as [NT|NT]; [discriminate|]. injection NT as ->.
    now apply NE.
  - exists Sample.lib, (Sample.file "a.pdf"). eexists. split; reflexivity.
Qed.

Lemma page_without_text_is_skipped_witness :
  ~ In 2%Z (map page [ {| page := 1; content := lit "Hola" |};
                       {| page := 3; content := [] |};
                       {| page := 5;
                          content := lit "a" ++ [241%N] ++ lit "o" |} ]).
Proof.
  apply (proj1 page_without_text_is_skipped
               Sample.lib (Sample.file "a.pdf") Sample.a_pages _
               1%nat (PageText [])); try reflexivity.
  now right.
Defined.

(* ================================================================= *)
(** ** The reporter *)

Lemma first_page_preview_long (c : pystr) :
  200 < List.length c ->
  first_page_preview c = firstn 200 c ++ lit "..."
  /\ List.length (first_page_preview c) = 203.
Proof.
  intros L. unfold first_page_preview.
  apply Nat.ltb_lt in L. rewrite L. split; auto.
  apply Nat.ltb_lt in L.
  rewrite length_app, length_firstn, Nat.min_l by lia. reflexivity.
Qed.

Lemma first_page_preview_short (c : pystr) :
  List.length c <= 200 -> first_page_preview c = c.
Proof.
  intros L. unfold first_page_preview.
  apply Nat.ltb_ge in L. now rewrite L.
Qed.

(** C3.  For a file processed to a non-empty list, the console shows,
    after the page count, a preview of the first record's content: its
    first 200 characters followed by three dots when it is longer than
    200, and the content itself, without dots, when it has 200 characters
    or fewer. *)
Theorem first_page_preview_truncates_at_200
        (lib : pdfplumber) (listing : list pystr) (pdf_file : Path.t)
        (first : PageRecord) (rest : list PageRecord) :
  In pdf_file (glob_pdf base_path listing) ->
  extract_pdf_text lib pdf_file = Success (first :: rest) ->
  exists before after preview,
    printed (analyze_pdf_files lib listing)
    = before
        ++ [ lit "Processing: " ++ Path.name pdf_file;
             lit "  - Pages: " ++ of_nat (S (List.length rest));
             lit "  - First page preview: " ++ preview;
             [] ]
        ++ after
    /\ (200 < List.length (content first) ->
        preview = firstn 200 (content first) ++ lit "..."
        /\ List.length preview = 203)
    /\ (List.length (content first) <= 200 -> preview = content first).
Proof.
  intros I E.
  destruct (printed_block lib _ _ I) as (before & after & P).
  exists before, after, (first_page_preview (content first)).
  split.
  - rewrite P. unfold file_block. rewrite E. reflexivity.
  - split; [apply first_page_preview_long | apply first_page_preview_short].
Qed.

Lemma first_page_preview_truncates_at_200_witness :
  exists before after preview,
    printed (analyze_pdf_files Sample.lib Sample.listing)
    = before
        ++ [ lit "Processing: " ++ Path.name (Sample.file "long.pdf");
             lit "  - Pages: " ++ of_nat 1;
             lit "  - First page preview: " ++ preview;
             [] ]
        ++ after
    /\ (200 < List.length (repeat 120%N 201) ->
        preview = firstn 200 (repeat 120%N 201) ++ lit "..."
        /\ List.length preview = 203)
    /\ (List.length (repeat 120%N 201) <= 200 ->
        preview = repeat 120%N 201).
Proof.
  apply (@first_page_preview_truncates_at_200
           Sample.lib Sample.listing (Sample.file "long.pdf")
           {| page := 1; content := repeat 120%N 201 |} []).
  - vm_compute. tauto.
  - reflexivity.
Defined.

(** The two boundary cases of the preview. *)
Example preview_of_201_characters :
  first_page_preview (repeat 120%N 201) = repeat 120%N 200 ++ lit "...".
Proof. reflexivity. Qed.

Example preview_of_200_characters :
  first_page_preview (repeat 120%N 200) = repeat 120%N 200.
Proof. reflexivity. Qed.

Lemma extract_pages_no_text pages : forall page_num,
  Forall no_text pages -> extract_pages page_num pages [] = Returns [].
Proof.
  induction pages as [|p rest IH]; intros page_num F; auto.
  apply Forall_cons_iff in F. destruct F as [[->| ->] F]; simpl; auto.
Qed.

(** C9.  A file that opens and whose pages all give no text or empty
    text is processed to the empty list: the report holds the empty list
    under its name, JSON renders it as an empty array, and the console
    shows a page count of 0 followed directly by the blank line that ends
    the file's block, without a preview line. *)
Theorem file_without_text_gives_empty_list
        (lib : pdfplumber) (listing : list pystr) (pdf_file : Path.t)
        (pages : list page_outcome) :
  In pdf_file (glob_pdf base_path listing) ->
  lib pdf_file = Opened pages ->
  Forall no_text pages ->
  extract_pdf_text lib pdf_file = Success []
  /\ dict_get (returned (analyze_pdf_files lib listing)) (Path.name pdf_file)
     = Some (Success [])
  /\ Json.file_result false 2 1 (extract_pdf_text lib pdf_file) = lit "[]"
  /\ print_summary (extract_pdf_text lib pdf_file) = [lit "  - Pages: 0"]
  /\ exists before after,
       printed (analyze_pdf_files lib listing)
       = before
           ++ [ lit "Processing: " ++ Path.name pdf_file;
                lit "  - Pages: 0";
                [] ]
           ++ after.
Proof.
  intros I O F.
  assert (E : extract_pdf_text lib pdf_file = Success []).
  { unfold extract_pdf_text, try_extract. rewrite O.
    now rewrite extract_pages_no_text. }
  rewrite E. repeat split; auto.
  - now rewrite returned_get_file, E.
  - destruct (printed_block lib _ _ I) as (before & after & P).
    exists before, after. rewrite P. unfold file_block. now rewrite E.
Qed.

Lemma file_without_text_gives_empty_list_witness :
  extract_pdf_text Sample.lib (Sample.file "empty.pdf") = Success []
  /\ dict_get (returned (analyze_pdf_files Sample.lib Sample.listing))
              (Path.name (Sample.file "empty.pdf"))
     = Some (Success [])
  /\ Json.file_result false 2 1
       (extract_pdf_text Sample.lib (Sample.file "empty.pdf")) = lit "[]"
  /\ print_summary (extract_pdf_text Sample.lib (Sample.file "empty.pdf"))
     = [lit "  - Pages: 0"]
  /\ exists before after,
       printed (analyze_pdf_files Sample.lib Sample.listing)
       = before
           ++ [ lit "Processing: " ++ Path.name (Sample.file "empty.pdf");
                lit "  - Pages: 0";
                [] ]
           ++ after.
Proof.
  apply (@file_without_text_gives_empty_list
           Sample.lib Sample.listing (Sample.file "empty.pdf")
           [PageNone; PageText []]).
  - vm_compute. tauto.
  - reflexivity.
  - constructor; [now left | constructor; [now right | constructor]].
Defined.

(* ================================================================= *)
(** ** The report *)

(** The scenario of the specification: a readable file of two pages and
    an unreadable one. *)
Example report_of_good_and_corrupt_file :
  let lib : pdfplumber := fun p =>
    if PyStr.eqb (Path.name p) (lit "a.pdf")
    then Opened [PageText (lit "uno"); PageText (lit "dos")]
    else OpenRaises (lit "No /Root object") in
  returned (analyze_pdf_files lib [lit "a.pdf"; lit "b.pdf"])
  = [ (lit "a.pdf", Success [ {| page := 1; content := lit "uno" |};
                              {| page := 2; content := lit "dos" |} ]);
      (lit "b.pdf",
       Failure (lit "Error extracting from /Users/aldoruizluna/labspace/ec0249/reference/raw/b.pdf: No /Root object")) ].
Proof. reflexivity. Qed.

Lemma extract_pdf_text_ext lib1 lib2 pdf_path :
  lib1 pdf_path = lib2 pdf_path ->
  extract_pdf_text lib1 pdf_path = extract_pdf_text lib2 pdf_path.
Proof. unfold extract_pdf_text, try_extract. now intros ->. Qed.

(** The loop sees the library only at the files it walks. *)
Lemma fold_process_file_ext lib1 lib2 files : forall st,
  (forall f, In f files -> lib1 f = lib2 f) ->
  fold_left (process_file lib1) files st
  = fold_left (process_file lib2) files st.
Proof.
  induction files as [|f rest IH]; intros st AG; auto.
  simpl. rewrite IH by (intros; apply AG; now right).
  f_equal. unfold process_file.
  now rewrite (extract_pdf_text_ext lib1 lib2 f) by (apply AG; now left).
Qed.

(** C8.  Two runs over the same directory listing, with a library that
    answers alike on the enumerated files, write the same text, hence the
    same bytes, to the same file: the run adds nothing of its own. *)
Theorem two_runs_write_identical_json
        (lib1 lib2 : pdfplumber) (listing : list pystr) :
  (forall f, In f (glob_pdf base_path listing) -> lib1 f = lib2 f) ->
  written (analyze_pdf_files lib1 listing)
  = written (analyze_pdf_files lib2 listing)
  /\ Utf8.encode (written (analyze_pdf_files lib1 listing))
     = Utf8.encode (written (analyze_pdf_files lib2 listing))
  /\ output_file (analyze_pdf_files lib1 listing)
     = output_file (analyze_pdf_files lib2 listing).
Proof.
  intros AG.
  assert (W : written (analyze_pdf_files lib1 listing)
              = written (analyze_pdf_files lib2 listing)).
  { unfold analyze_pdf_files. cbn [written].
    now rewrite (fold_process_file_ext lib1 lib2 _ _ AG). }
  repeat split; auto. now rewrite W.
Qed.

Lemma two_runs_write_identical_json_witness :
  written (analyze_pdf_files Sample.lib Sample.listing)
  = written (analyze_pdf_files Sample.lib' Sample.listing)
  /\ Utf8.encode (written (analyze_pdf_files Sample.lib Sample.listing))
     = Utf8.encode (written (analyze_pdf_files Sample.lib' Sample.listing))
  /\ output_file (analyze_pdf_files Sample.lib Sample.listing)
     = output_file (analyze_pdf_files Sample.lib' Sample.listing).
Proof.
  apply (@two_runs_write_identical_json
           Sample.lib Sample.lib' Sample.listing).
  intros f I. vm_compute in I.
  repeat (destruct I as [<-|I]; [reflexivity|]). destruct I.
Defined.

(* ================================================================= *)
(** ** Stored content *)

Lemma lstrip_idem (s : pystr) : lstrip (lstrip s) = lstrip s.
Proof.
  induction s as [|c rest IH]; simpl; auto.
  destruct (isspace c) eqn:E; auto. simpl. now rewrite E.
Qed.

(** What [strip] returns has no whitespace at either end. *)
Lemma strip_trimmed (s : pystr) :
  lstrip (strip s) = strip s /\ rstrip (strip s) = strip s.
Proof.
  unfold strip, rstrip. split.
  - remember (lstrip s) as t eqn:T.
    assert (ID : lstrip t = t) by (subst; apply lstrip_idem).
    clear T s. 
    destruct (lstrip (List.rev t)) as [|c u] eqn:U; auto.
    (* t = blanks-reversed prefix: rev t = w ++ c :: u *)
    assert (P : exists w, List.rev t = w ++ c :: u
                          /\ Forall (fun x => isspace x = true) w).
    { clear ID. revert U. generalize (List.rev t) as r.
      induction r as [|x r IH]; simpl; [discriminate|].
      destruct (isspace x) eqn:X.
      - intros U. destruct (IH U) as (w & -> & F). exists (x :: w). auto.
      - intros [= -> ->]. exists []. auto. }
    destruct P as (w & R & F).
    apply (f_equal (@List.rev _)) in R. rewrite rev_involutive in R.
    rewrite rev_app_distr in R. simpl in R. rewrite <- app_assoc in R.
    simpl in R.
    (* t = rev u ++ c :: rev w, and t does not start with a blank *)
    simpl. destruct (List.rev u) as [|y v] eqn:V.
    + simpl in *. subst t. simpl in ID.
      destruct (isspace c) eqn:C; auto.
      assert (C' : isspace c = false).
      { clear - U. revert U. generalize (List.rev (c :: List.rev w)) as r.
        induction r as [|x r IH]; simpl; [discriminate|].
        destruct (isspace x) eqn:X; auto. now intros [= <- _]. }
      congruence.
    + simpl in *. subst t. simpl in ID.
      destruct (isspace y) eqn:Y; auto.
      exfalso. apply (f_equal (@List.length _)) in ID.
      assert (LE : forall z, List.length (lstrip z) <= List.length z).
      { clear. induction z as [|x z IH]; simpl; auto.
        destruct (isspace x); simpl; lia. }
      specialize (LE (v ++ c :: List.rev w)). simpl in ID. lia.
  - now rewrite rev_involutive, lstrip_idem.
Qed.

(** The content of every record is the page's text, trimmed. *)
Lemma stored_content_is_trimmed lib pdf_path recs r :
  extract_pdf_text lib pdf_path = Success recs ->
  In r recs ->
  lstrip (content r) = content r /\ rstrip (content r) = content r.
Proof.
  intros H I. destruct (extract_pdf_text_records _ _ H) as (pages & _ & M).
  apply M in I. destruct I as (i & text & _ & _ & ->). simpl.
  apply strip_trimmed.
Qed.

(** The test [if page_text] looks at the text before it is trimmed. *)
Lemma stored_content_comes_from_text lib pdf_path recs r :
  extract_pdf_text lib pdf_path = Success recs ->
  In r recs ->
  exists text, truthy text = true /\ content r = strip text.
Proof.
  intros H I. destruct (extract_pdf_text_records _ _ H) as (pages & _ & M).
  apply M in I. destruct I as (i & text & _ & NE & ->). simpl.
  exists text. split; auto. now apply truthy_true.
Qed.

(** C2.  A page whose text is one blank passes the test [if page_text]
    and is stored with that text trimmed, which is the empty string: the
    stored content is trimmed but not always non-empty. *)
Theorem blank_page_is_stored_with_empty_content :
  Sample.lib (Sample.file "blank.pdf") = Opened [PageText (lit " ")]
  /\ extract_pdf_text Sample.lib (Sample.file "blank.pdf")
     = Success [ {| page := 1; content := [] |} ].
Proof. split; reflexivity. Qed.

(* ================================================================= *)
(** ** Serialization *)

Lemma hex_digit_ascii (n : N) :
  (n < 16)%N -> non_ascii (Json.hex_digit n) = false.
Proof.
  intros L. unfold non_ascii, Json.hex_digit.
  destruct (n <? 10)%N; apply N.ltb_ge; lia.
Qed.

Lemma u_escape_ascii (n : N) : filter non_ascii (Json.u_escape n) = [].
Proof.
  unfold Json.u_escape. cbn [filter].
  rewrite !hex_digit_ascii by (apply N.mod_lt; discriminate).
  reflexivity.
Qed.

(** Without [ensure_ascii] a character beyond ASCII stands for itself. *)
Lemma escape_char_literal (c : codepoint) :
  (127 < c)%N -> Json.escape_char false c = [c].
Proof.
  intros L. unfold Json.escape_char.
  repeat match goal with
         | |- context [(c =? ?k)%N] =>
             replace (c =? k)%N with false by (symmetry; apply N.eqb_neq; lia)
         end.
  replace (c <? 32)%N with false by (symmetry; apply N.ltb_ge; lia).
  reflexivity.
Qed.

(** What replaces an ASCII character is ASCII. *)
Lemma escape_char_ascii (ensure_ascii : bool) (c : codepoint) :
  (c <= 127)%N -> filter non_ascii (Json.escape_char ensure_ascii c) = [].
Proof.
  intros L. unfold Json.escape_char.
  destruct (c =? 34)%N; [reflexivity|].
  destruct (c =? 92)%N; [reflexivity|].
  destruct (c =? 10)%N; [reflexivity|].
  destruct (c =? 13)%N; [reflexivity|].
  destruct (c =? 9)%N; [reflexivity|].
  destruct (c =? 12)%N; [reflexivity|].
  destruct (c =? 8)%N; [reflexivity|].
  destruct (c <? 32)%N; [apply u_escape_ascii|].
  destruct (ensure_ascii && (126 <? c)%N).
  - destruct (c <? 65536)%N; [apply u_escape_ascii|].
    rewrite filter_app, !u_escape_ascii. reflexivity.
  - simpl. unfold non_ascii.
    now replace (127 <? c)%N with false by (symmetry; apply N.ltb_ge; lia).
Qed.

Lemma escape_char_keeps (c : codepoint) :
  filter non_ascii (Json.escape_char false c) = filter non_ascii [c].
Proof.
  destruct (N.le_gt_cases c 127) as [L|L].
  - rewrite escape_char_ascii by exact L. simpl. unfold non_ascii.
    now replace (127 <? c)%N with false by (symmetry; apply N.ltb_ge; lia).
  - now rewrite escape_char_literal by lia.
Qed.

(** Under [ensure_ascii] nothing beyond ASCII would be left. *)
Lemma escape_char_ensure_ascii (c : codepoint) :
  filter non_ascii (Json.escape_char true c) = [].
Proof.
  destruct (N.le_gt_cases c 127) as [L|L].
  - now apply escape_char_ascii.
  - unfold Json.escape_char.
    repeat match goal with
           | |- context [(c =? ?k)%N] =>
               replace (c =? k)%N with false
                 by (symmetry; apply N.eqb_neq; lia)
           end.
    replace (c <? 32)%N with false by (symmetry; apply N.ltb_ge; lia).
    replace (126 <? c)%N with true by (symmetry; apply N.ltb_lt; lia).
    cbn [andb]. destruct (c <? 65536)%N; [apply u_escape_ascii|].
    rewrite filter_app, !u_escape_ascii. reflexivity.
Qed.

Lemma encode_basestring_keeps (s : pystr) :
  filter non_ascii (Json.encode_basestring false s) = filter non_ascii s.
Proof.
  unfold Json.encode_basestring. rewrite !filter_app. simpl.
  rewrite app_nil_r.
  induction s as [|c rest IH]; auto.
  cbn [flat_map]. rewrite filter_app, IH, escape_char_keeps.
  change (c :: rest) with ([c] ++ rest). now rewrite filter_app.
Qed.

Lemma of_uint_ascii (d : Decimal.uint) : filter non_ascii (of_uint d) = [].
Proof. induction d; simpl; auto. Qed.

Lemma of_Z_ascii (z : Z) : filter non_ascii (of_Z z) = [].
Proof.
  unfold of_Z. destruct (Z.to_int z); simpl; apply of_uint_ascii.
Qed.

Lemma newline_indent_ascii (indent level : nat) :
  filter non_ascii (Json.newline_indent indent level) = [].
Proof.
  unfold Json.newline_indent. simpl.
  induction (indent * level)%nat; simpl; auto.
Qed.

Lemma join_filter (sep : pystr) (items : list pystr) :
  filter non_ascii sep = [] ->
  filter non_ascii (Json.join sep items)
  = flat_map (filter non_ascii) items.
Proof.
  intros S. induction items as [|c rest IH]; auto.
  destruct rest as [|c' rest'].
  - simpl. now rewrite app_nil_r.
  - change (Json.join sep (c :: c' :: rest'))
      with (c ++ sep ++ Json.join sep (c' :: rest')).
    rewrite !filter_app, S, IH. reflexivity.
Qed.

Lemma container_filter (opening closing : pystr) (indent level : nat)
      (items : list pystr) :
  filter non_ascii opening = [] -> filter non_ascii closing = [] ->
  filter non_ascii (Json.container opening closing indent level items)
  = flat_map (filter non_ascii) items.
Proof.
  intros O C. unfold Json.container. destruct items as [|c rest].
  - now rewrite filter_app, O, C.
  - rewrite !filter_app, O, C, !newline_indent_ascii, join_filter.
    + now rewrite app_nil_r.
    + now rewrite filter_app, newline_indent_ascii.
Qed.

Lemma member_filter (key value : pystr) :
  filter non_ascii (Json.member false key value)
  = filter non_ascii key ++ filter non_ascii value.
Proof.
  unfold Json.member. now rewrite !filter_app, encode_basestring_keeps.
Qed.

Lemma page_record_filter (indent level : nat) (r : PageRecord) :
  filter non_ascii (Json.page_record false indent level r)
  = filter non_ascii (content r).
Proof.
  unfold Json.page_record. rewrite container_filter by reflexivity.
  cbn [flat_map]. rewrite !member_filter, of_Z_ascii, encode_basestring_keeps.
  simpl. now rewrite app_nil_r.
Qed.

Lemma file_result_filter (indent level : nat) (r : FileResult) :
  filter non_ascii (Json.file_result false indent level r)
  = non_ascii_of_result r.
Proof.
  destruct r as [recs|message]; simpl.
  - rewrite container_filter by reflexivity.
    induction recs as [|r rest IH]; auto.
    cbn [map flat_map]. now rewrite page_record_filter, IH.
  - apply encode_basestring_keeps.
Qed.

(** The text of the document has, beyond ASCII, exactly the characters
    of the report's keys, contents and messages, in their order. *)
Lemma dumps_keeps_non_ascii (indent : nat) (report : AnalysisReport) :
  filter non_ascii (Json.dumps false indent report)
  = non_ascii_of_report report.
Proof.
  unfold Json.dumps. rewrite container_filter by reflexivity.
  unfold non_ascii_of_report.
  induction report as [|[k v] rest IH]; auto.
  cbn [map flat_map fst snd].
  now rewrite member_filter, file_result_filter, IH.
Qed.

(* ----------------------------------------------------------------- *)
(** *** The text is the text of its lines *)

Lemma continued_app indent (a b : list Layout.line) :
  Layout.continued indent (a ++ b)
  = Layout.continued indent a ++ Layout.continued indent b.
Proof. apply flat_map_app. Qed.

Lemma append_to_last_text indent (ls : list Layout.line) (s : pystr) :
  ls <> [] ->
  Layout.continued indent (Layout.append_to_last ls s)
  = Layout.continued indent ls ++ s.
Proof.
  induction ls as [|l rest IH]; [congruence|]. intros _.
  destruct rest as [|l' rest'].
  - simpl. now rewrite !app_nil_r, <- app_assoc.
  - change (Layout.append_to_last (l :: l' :: rest') s)
      with (l :: Layout.append_to_last (l' :: rest') s).
    change (l :: ?x) with ([l] ++ x).
    rewrite !continued_app, IH by discriminate.
    now rewrite <- app_assoc.
Qed.

Lemma with_suffix_text indent (b : Layout.block) (s : pystr) :
  Layout.block_text indent (Layout.with_suffix b s)
  = Layout.block_text indent b ++ s.
Proof.
  unfold Layout.block_text, Layout.with_suffix.
  destruct (Layout.more b) as [|l rest] eqn:M; cbn [Layout.head Layout.more].
  - simpl. now rewrite !app_nil_r.
  - rewrite append_to_last_text by discriminate. now rewrite <- app_assoc.
Qed.

Lemma item_lines_text indent depth (items : list Layout.block) :
  items <> [] ->
  Layout.continued indent (Layout.item_lines depth items)
  = Json.newline_indent indent depth
      ++ Json.join (lit "," ++ Json.newline_indent indent depth)
           (map (Layout.block_text indent) items).
Proof.
  induction items as [|b rest IH]; [congruence|]. intros _.
  destruct rest as [|b' rest'].
  - unfold Layout.block_text, Layout.continued.
    cbn [Layout.item_lines flat_map fst snd map Json.join].
    now rewrite <- app_assoc.
  - change (Layout.item_lines depth (b :: b' :: rest'))
      with ((depth, Layout.head (Layout.with_suffix b (lit ",")))
              :: Layout.more (Layout.with_suffix b (lit ","))
              ++ Layout.item_lines depth (b' :: rest')).
    change (map (Layout.block_text indent) (b :: b' :: rest'))
      with (Layout.block_text indent b
              :: map (Layout.block_text indent) (b' :: rest')).
    change (?x :: ?l ++ ?m) with (([x] ++ l) ++ m).
    rewrite !continued_app, IH by discriminate.
    assert (E : Layout.continued indent
                  [(depth, Layout.head (Layout.with_suffix b (lit ",")))]
                ++ Layout.continued indent
                     (Layout.more (Layout.with_suffix b (lit ",")))
                = Json.newline_indent indent depth
                    ++ Layout.block_text indent
                         (Layout.with_suffix b (lit ","))).
    { unfold Layout.block_text, Layout.continued at 1.
      cbn [flat_map fst snd]. now rewrite app_nil_r, <- app_assoc. }
    rewrite E, with_suffix_text.
    cbn [Json.join]. now rewrite <- !app_assoc.
Qed.

Lemma container_text indent opening closing level
      (items : list Layout.block) :
  Layout.block_text indent (Layout.container opening closing level items)
  = Json.container opening closing indent level
      (map (Layout.block_text indent) items).
Proof.
  destruct items as [|b rest].
  - simpl. unfold Layout.block_text. simpl. now rewrite app_nil_r.
  - unfold Layout.container, Json.container, Layout.block_text.
    cbn [Layout.head Layout.more].
    rewrite continued_app, item_lines_text by discriminate.
    cbn [map]. simpl Layout.continued.
    now rewrite app_nil_r, <- !app_assoc.
Qed.

Lemma member_text indent ensure_ascii key (value : Layout.block) :
  Layout.block_text indent (Layout.member ensure_ascii key value)
  = Json.member ensure_ascii key (Layout.block_text indent value).
Proof.
  unfold Layout.block_text, Layout.member, Json.member.
  cbn [Layout.head Layout.more]. now rewrite <- !app_assoc.
Qed.

Lemma atom_text indent (text : pystr) :
  Layout.block_text indent (Layout.atom text) = text.
Proof. unfold Layout.block_text. simpl. apply app_nil_r. Qed.

Lemma page_record_text indent ensure_ascii level (r : PageRecord) :
  Layout.block_text indent (Layout.page_record ensure_ascii level r)
  = Json.page_record ensure_ascii indent level r.
Proof.
  unfold Layout.page_record, Json.page_record.
  rewrite container_text. cbn [map].
  now rewrite !member_text, !atom_text.
Qed.

Lemma file_result_text indent ensure_ascii level (r : FileResult) :
  Layout.block_text indent (Layout.file_result ensure_ascii level r)
  = Json.file_result ensure_ascii indent level r.
Proof.
  destruct r as [recs|message]; cbn [Layout.file_result Json.file_result].
  - rewrite container_text, map_map. f_equal.
    apply map_ext. intros r. apply page_record_text.
  - apply atom_text.
Qed.

Lemma report_block_text indent ensure_ascii (report : AnalysisReport) :
  Layout.block_text indent (Layout.report_block ensure_ascii report)
  = Json.dumps ensure_ascii indent report.
Proof.
  unfold Layout.report_block, Json.dumps.
  rewrite container_text, map_map. f_equal.
  apply map_ext. intros [k v]. cbn [fst snd].
  now rewrite member_text, file_result_text.
Qed.

Lemma render_continued indent (h : pystr) (ls : list Layout.line) :
  Layout.render indent ((0, h) :: ls) = h ++ Layout.continued indent ls.
Proof.
  unfold Layout.render. cbn [map fst snd].
  rewrite Nat.mul_0_r. cbn [repeat app].
  revert h. induction ls as [|l rest IH]; intros h.
  - simpl. now rewrite app_nil_r.
  - cbn [map]. 
    change (Json.join [10%N] (h :: ?x :: ?r))
      with (h ++ [10%N] ++ Json.join [10%N] (x :: r)).
    rewrite IH. unfold Layout.continued. cbn [flat_map].
    unfold Json.newline_indent. now rewrite <- !app_assoc.
Qed.

(** [json.dumps] writes the lines of the layout, indented by depth. *)
Lemma dumps_lines indent ensure_ascii (report : AnalysisReport) :
  Json.dumps ensure_ascii indent report
  = Layout.render indent (Layout.lines ensure_ascii report).
Proof.
  unfold Layout.lines. rewrite render_continued.
  symmetry. apply report_block_text.
Qed.

(* ----------------------------------------------------------------- *)
(** *** Every line is a line, at depth 3 at most *)

Lemma hex_digit_printable (n : N) : (48 <= Json.hex_digit n)%N.
Proof. unfold Json.hex_digit. destruct (n <? 10)%N; lia. Qed.

Lemma u_escape_no_newline (n : N) : ~ In 10%N (Json.u_escape n).
Proof.
  unfold Json.u_escape. intros I. simpl in I.
  repeat (destruct I as [E|I];
          [try discriminate;
           match type of E with
           | Json.hex_digit ?x = _ =>
               pose proof (hex_digit_printable x); lia
           end|]).
  destruct I.
Qed.

Lemma escape_char_no_newline ensure_ascii (c : codepoint) :
  ~ In 10%N (Json.escape_char ensure_ascii c).
Proof.
  unfold Json.escape_char.
  destruct (c =? 34)%N; [simpl; lia|].
  destruct (c =? 92)%N; [simpl; lia|].
  destruct (N.eqb_spec c 10); [simpl; lia|].
  destruct (c =? 13)%N; [simpl; lia|].
  destruct (c =? 9)%N; [simpl; lia|].
  destruct (c =? 12)%N; [simpl; lia|].
  destruct (c =? 8)%N; [simpl; lia|].
  destruct (c <? 32)%N; [apply u_escape_no_newline|].
  destruct (ensure_ascii && (126 <? c)%N).
  - destruct (c <? 65536)%N; [apply u_escape_no_newline|].
    rewrite in_app_iff. intros [I|I]; eapply u_escape_no_newline; eauto.
  - simpl. intros [E|[]]. congruence.
Qed.

Lemma encode_basestring_inline ensure_ascii (s : pystr) :
  Layout.inline (Json.encode_basestring ensure_ascii s).
Proof.
  unfold Json.encode_basestring. split.
  - eexists _, _. split; [reflexivity|discriminate].
  - rewrite !in_app_iff, in_flat_map. simpl.
    intros [[E|[]]|[(c & _ & I)|[E|[]]]]; try discriminate.
    eapply escape_char_no_newline; eauto.
Qed.

Lemma of_uint_digits (d : Decimal.uint) (c : codepoint) :
  In c (of_uint d) -> (48 <= c <= 57)%N.
Proof.
  induction d; simpl; intros I; [destruct I|..];
    (destruct I as [<-|I]; [lia | auto]).
Qed.

Lemma of_Z_no_newline (z : Z) : ~ In 10%N (of_Z z).
Proof.
  unfold of_Z. destruct (Z.to_int z); simpl; intros I.
  - apply of_uint_digits in I. lia.
  - destruct I as [E|I]; [discriminate|]. apply of_uint_digits in I. lia.
Qed.

Lemma inline_app (a b : pystr) :
  Layout.inline a -> ~ In 10%N b -> Layout.inline (a ++ b).
Proof.
  intros [(c & rest & -> & NB) NA] NL. split.
  - exists c, (rest ++ b). auto.
  - rewrite in_app_iff. tauto.
Qed.

Lemma inline_no_newline (a : pystr) : Layout.inline a -> ~ In 10%N a.
Proof. now intros [_ N]. Qed.

Section Tidy.

Variable deepest : nat.

Local Abbreviation ok := (Layout.line_ok deepest).

Lemma tidy_atom (text : pystr) :
  Layout.inline text -> Layout.tidy deepest (Layout.atom text).
Proof. intros I. split; [exact I | constructor]. Qed.

Lemma append_to_last_ok (ls : list Layout.line) (s : pystr) :
  ~ In 10%N s -> Forall ok ls -> Forall ok (Layout.append_to_last ls s).
Proof.
  intros NL. induction ls as [|l rest IH]; intros F; [constructor|].
  apply Forall_cons_iff in F. destruct F as [[D I] F].
  destruct rest as [|l' rest'].
  - constructor; [|constructor]. split; auto. now apply inline_app.
  - change (Layout.append_to_last (l :: l' :: rest') s)
      with (l :: Layout.append_to_last (l' :: rest') s).
    constructor; [now split | now apply IH].
Qed.

Lemma tidy_with_suffix (b : Layout.block) (s : pystr) :
  ~ In 10%N s -> Layout.tidy deepest b ->
  Layout.tidy deepest (Layout.with_suffix b s).
Proof.
  intros NL [H M]. unfold Layout.with_suffix.
  destruct (Layout.more b) as [|l rest] eqn:E.
  - split; [now apply inline_app | constructor].
  - split; [exact H | now apply append_to_last_ok].
Qed.

Lemma item_lines_ok depth (items : list Layout.block) :
  depth <= deepest ->
  Forall (Layout.tidy deepest) items ->
  Forall ok (Layout.item_lines depth items).
Proof.
  intros D. induction items as [|b rest IH]; intros F; [constructor|].
  apply Forall_cons_iff in F. destruct F as [T F].
  destruct rest as [|b' rest'].
  - destruct T as [H M]. constructor; [now split | exact M].
  - change (Layout.item_lines depth (b :: b' :: rest'))
      with ((depth, Layout.head (Layout.with_suffix b (lit ",")))
              :: Layout.more (Layout.with_suffix b (lit ","))
              ++ Layout.item_lines depth (b' :: rest')).
    assert (T' : Layout.tidy deepest (Layout.with_suffix b (lit ","))).
    { apply tidy_with_suffix; auto. simpl. intros [E|[]]. discriminate. }
    destruct T' as [H M].
    constructor; [now split|]. apply Forall_app. split; auto.
Qed.

Lemma tidy_container opening closing level (items : list Layout.block) :
  Layout.inline opening -> Layout.inline closing ->
  S level <= deepest ->
  Forall (Layout.tidy deepest) items ->
  Layout.tidy deepest (Layout.container opening closing level items).
Proof.
  intros O C D F. destruct items as [|b rest].
  - apply tidy_atom, inline_app; auto. now apply inline_no_newline.
  - split; [exact O|]. cbn [Layout.container Layout.more].
    apply Forall_app. split.
    + now apply item_lines_ok.
    + constructor; [|constructor]. split; [simpl; lia | exact C].
Qed.

Lemma tidy_member ensure_ascii key (value : Layout.block) :
  ~ In 10%N (Layout.head value) ->
  Forall ok (Layout.more value) ->
  Layout.tidy deepest (Layout.member ensure_ascii key value).
Proof.
  intros H M. split; [|exact M]. cbn [Layout.member Layout.head].
  apply inline_app; [apply encode_basestring_inline|].
  rewrite in_app_iff. intros [I|I]; [|tauto].
  simpl in I. destruct I as [E|[E|[]]]; discriminate.
Qed.

End Tidy.

Lemma inline_bracket (s : string) :
  match lit s with [c] => (c =? 32)%N = false /\ (c =? 10)%N = false
              | _ => False end ->
  Layout.inline (lit s).
Proof.
  destruct (lit s) as [|c [|c' rest]]; try tauto.
  intros [B N]. apply N.eqb_neq in B, N. split.
  - exists c, []. auto.
  - simpl. intros [E|[]]. congruence.
Qed.

Lemma tidy_page_record ensure_ascii level (r : PageRecord) :
  Layout.tidy (S level) (Layout.page_record ensure_ascii level r).
Proof.
  apply tidy_container; auto; try (apply inline_bracket; now vm_compute).
  constructor; [|constructor; [|constructor]];
    apply tidy_member; try (now constructor).
  - apply of_Z_no_newline.
  - apply inline_no_newline, encode_basestring_inline.
Qed.

Lemma tidy_file_result ensure_ascii level (r : FileResult) :
  Layout.tidy (S (S level)) (Layout.file_result ensure_ascii level r).
Proof.
  destruct r as [recs|message]; cbn [Layout.file_result].
  - apply tidy_container; auto; try (apply inline_bracket; now vm_compute).
    apply Forall_map, Forall_forall. intros r _. apply tidy_page_record.
  - apply tidy_atom, encode_basestring_inline.
Qed.

Lemma tidy_report_block ensure_ascii (report : AnalysisReport) :
  Layout.tidy 3 (Layout.report_block ensure_ascii report).
Proof.
  apply tidy_container; auto; try (apply inline_bracket; now vm_compute).
  apply Forall_map, Forall_forall. intros [k v] _. cbn [fst snd].
  destruct (tidy_file_result ensure_ascii 1 v) as [H M].
  apply tidy_member; auto. now apply inline_no_newline.
Qed.

(** Every line of the document lies at depth 3 at most and its text,
    after the indentation, starts with a character that is not a blank
    and runs to the end of the line. *)
Lemma lines_tidy ensure_ascii (report : AnalysisReport) :
  Forall (Layout.line_ok 3) (Layout.lines ensure_ascii report).
Proof.
  destruct (tidy_report_block ensure_ascii report) as [H M].
  constructor; [|exact M]. split; [apply Nat.le_0_l | exact H].
Qed.

(** The accented letter of the sample document, with and without
    [ensure_ascii]. *)
Example accented_letter_is_kept :
  Json.encode_basestring false (lit "a" ++ [241%N] ++ lit "o")
  = [34; 97; 241; 111; 34]%N.
Proof. reflexivity. Qed.

Example accented_letter_would_be_escaped :
  Json.encode_basestring true (lit "a" ++ [241%N] ++ lit "o")
  = [34%N; 97%N] ++ [92%N; 117%N] ++ lit "00f1" ++ [111%N; 34%N].
Proof. reflexivity. Qed.

(* ================================================================= *)
(** ** More on the extractor *)

Lemma first_fault_Some_In pages e :
  first_fault pages = Some e -> In (PageRaises e) pages.
Proof.
  induction pages as [|p rest IH]; simpl; [discriminate|].
  destruct p as [text| |e']; auto. intros [= ->]. now left.
Qed.

Lemma raised_faulty (o : open_outcome) e : raised o = Some e -> faulty o.
Proof.
  destruct o as [e'|pages]; simpl; auto.
  intros H. exists e. now apply first_fault_Some_In.
Qed.

(** X1.  [extract_pdf_text] returns a list exactly when neither opening
    the document nor the extraction of any of its pages raises; otherwise
    it returns the error string. *)
Theorem extract_pdf_text_is_list_iff_nothing_raises
        (lib : pdfplumber) (pdf_path : Path.t) :
  (isinstance_list (extract_pdf_text lib pdf_path) = true
   <-> ~ faulty (lib pdf_path))
  /\ (isinstance_list (extract_pdf_text lib pdf_path) = false
      <-> faulty (lib pdf_path)).
Proof.
  destruct (raised (lib pdf_path)) as [e|] eqn:R.
  - pose proof (raised_faulty _ R) as F.
    rewrite (extract_pdf_text_raised lib pdf_path R). simpl.
    split; split; intros; auto; try discriminate; try contradiction.
  - destruct (extract_pdf_text_total lib pdf_path R) as [recs ->]. simpl.
    assert (NF : ~ faulty (lib pdf_path)).
    { intros F. destruct (faulty_raised _ F) as [e R']. congruence. }
    split; split; intros; auto; try discriminate; try contradiction.
Qed.

Lemma extract_pages_length pages : forall page_num recs,
  extract_pages page_num pages [] = Returns recs ->
  List.length recs = List.length (filter has_text pages).
Proof.
  induction pages as [|p rest IH]; intros page_num recs H.
  - simpl in H. now injection H as <-.
  - destruct p as [text| |e]; try discriminate.
    + cbn [filter has_text]. destruct (truthy text) eqn:T.
      * rewrite extract_pages_keep in H by exact T.
        destruct (extract_pages (page_num + 1) rest []) as [recs'|] eqn:H';
          [|discriminate].
        injection H as <-. simpl. f_equal. eapply IH; eauto.
      * simpl in H. rewrite T in H. eapply IH; eauto.
    + simpl in H. simpl. eapply IH; eauto.
Qed.

(** X2.  A document processed to a list gives one record per page whose
    text is not empty: as many records as such pages, never more than the
    document has pages, each numbered between 1 and the number of
    pages. *)
Theorem records_count_pages_with_text
        (lib : pdfplumber) (pdf_path : Path.t)
        (pages : list page_outcome) (recs : list PageRecord) :
  lib pdf_path = Opened pages ->
  extract_pdf_text lib pdf_path = Success recs ->
  List.length recs = List.length (filter has_text pages)
  /\ List.length recs <= List.length pages
  /\ Forall (fun r => 1 <= page r <= Z.of_nat (List.length pages))%Z recs.
Proof.
  intros O H.
  destruct (extract_pdf_text_success _ _ H) as (pages' & O' & _ & E).
  rewrite O in O'. injection O' as <-.
  pose proof (extract_pages_length _ _ E) as L.
  split; [exact L|]. split.
  - rewrite L. apply filter_length_le.
  - apply Forall_forall. intros r I.
    destruct (extract_pdf_text_records _ _ H) as (pages' & O' & M).
    rewrite O in O'. injection O' as <-.
    apply M in I. destruct I as (i & text & N & _ & ->). simpl.
    assert (i < List.length pages)%nat
      by (apply nth_error_Some; congruence).
    lia.
Qed.

Lemma records_count_pages_with_text_witness :
  List.length [ {| page := 1; content := lit "Hola" |};
                {| page := 3; content := [] |};
                {| page := 5; content := lit "a" ++ [241%N] ++ lit "o" |} ]
  = List.length (filter has_text Sample.a_pages)
  /\ List.length [ {| page := 1; content := lit "Hola" |};
                   {| page := 3; content := [] |};
                   {| page := 5;
                      content := lit "a" ++ [241%N] ++ lit "o" |} ]
     <= List.length Sample.a_pages
  /\ Forall (fun r => 1 <= page r <= Z.of_nat (List.length Sample.a_pages))%Z
       [ {| page := 1; content := lit "Hola" |};
         {| page := 3; content := [] |};
         {| page := 5; content := lit "a" ++ [241%N] ++ lit "o" |} ].
Proof.
  apply (@records_count_pages_with_text
           Sample.lib (Sample.file "a.pdf")); reflexivity.
Defined.

Lemma extract_pages_first pages : forall page_num first rest,
  extract_pages page_num pages [] = Returns (first :: rest) ->
  exists i text,
    nth_error pages i = Some (PageText text)
    /\ text <> []
    /\ first = {| page := page_num + Z.of_nat i; content := strip text |}
    /\ forall j p, j < i -> nth_error pages j = Some p -> no_text p.
Proof.
  induction pages as [|p tl IH]; intros page_num first rest H.
  - discriminate.
  - assert (LATER :
      extract_pages (page_num + 1) tl [] = Returns (first :: rest) ->
      no_text p ->
      exists i text,
        nth_error (p :: tl) i = Some (PageText text)
        /\ text <> []
        /\ first = {| page := page_num + Z.of_nat i;
                      content := strip text |}
        /\ forall j q, j < i -> nth_error (p :: tl) j = Some q -> no_text q).
    { intros H' NT. destruct (IH _ _ _ H') as (i & text & N & NE & -> & B).
      exists (S i), text. repeat split; auto.
      - f_equal. lia.
      - intros [|j] q LT Q.
        + simpl in Q. now injection Q as <-.
        + simpl in Q. apply (B j); auto. lia. }
    destruct p as [text| |e]; try discriminate.
    + destruct (truthy text) eqn:T.
      * rewrite extract_pages_keep in H by exact T.
        destruct (extract_pages (page_num + 1) tl []) as [recs'|];
          [|discriminate].
        injection H as <- <-. exists 0, text. repeat split.
        -- now apply truthy_true.
        -- f_equal. lia.
        -- intros j q LT. lia.
      * simpl in H. rewrite T in H. apply LATER; auto.
        right. destruct text; [reflexivity | discriminate].
    + simpl in H. apply LATER; auto. now left.
Qed.

(** X3.  The record the console previews as the first page is that of the
    first page of the document whose text is not empty, which need not be
    page 1: all pages before it gave no text. *)
Theorem first_record_is_first_page_with_text
        (lib : pdfplumber) (pdf_path : Path.t)
        (pages : list page_outcome) (first : PageRecord)
        (rest : list PageRecord) :
  lib pdf_path = Opened pages ->
  extract_pdf_text lib pdf_path = Success (first :: rest) ->
  exists i text,
    nth_error pages i = Some (PageText text)
    /\ text <> []
    /\ first = {| page := Z.of_nat i + 1; content := strip text |}
    /\ (forall j p, j < i -> nth_error pages j = Some p -> no_text p)
    /\ print_summary (extract_pdf_text lib pdf_path)
       = [ lit "  - Pages: " ++ of_nat (S (List.length rest));
           lit "  - First page preview: "
             ++ first_page_preview (strip text) ].
Proof.
  intros O H.
  destruct (extract_pdf_text_success _ _ H) as (pages' & O' & _ & E).
  rewrite O in O'. injection O' as <-.
  destruct (extract_pages_first _ _ E) as (i & text & N & NE & -> & B).
  exists i, text. repeat split; auto.
  - f_equal. lia.
  - rewrite H. reflexivity.
Qed.

Lemma first_record_is_first_page_with_text_witness :
  exists i text,
    nth_error [PageNone; PageText []; PageText (lit " x ")] i
    = Some (PageText text)
    /\ text <> []
    /\ {| page := 3; content := lit "x" |}
       = {| page := Z.of_nat i + 1; content := strip text |}
    /\ (forall j p,
          j < i ->
          nth_error [PageNone; PageText []; PageText (lit " x ")] j = Some p ->
          no_text p)
    /\ print_summary (extract_pdf_text Scenario.late (Sample.file "a.pdf"))
       = [ lit "  - Pages: " ++ of_nat 1;
           lit "  - First page preview: "
             ++ first_page_preview (strip text) ].
Proof.
  apply (@first_record_is_first_page_with_text
           Scenario.late (Sample.file "a.pdf")
           [PageNone; PageText []; PageText (lit " x ")]
           {| page := 3; content := lit "x" |} []); reflexivity.
Defined.

(* ----------------------------------------------------------------- *)
(** *** What trimming removes *)

Lemma lstrip_split (s : pystr) :
  exists lead, s = lead ++ lstrip s /\ blank lead.
Proof.
  induction s as [|c rest (lead & E & B)].
  - exists []. split; [reflexivity | constructor].
  - simpl. destruct (isspace c) eqn:C.
    + exists (c :: lead). split; [simpl; congruence | now constructor].
    + exists []. split; [reflexivity | constructor].
Qed.

Lemma rstrip_split (s : pystr) :
  exists trail, s = rstrip s ++ trail /\ blank trail.
Proof.
  unfold rstrip. destruct (lstrip_split (List.rev s)) as (w & E & B).
  exists (List.rev w). split.
  - rewrite <- rev_app_distr, <- E. now rewrite rev_involutive.
  - now apply Forall_rev.
Qed.

Lemma strip_split (s : pystr) :
  exists lead trail, s = lead ++ strip s ++ trail /\ blank lead /\ blank trail.
Proof.
  unfold strip. destruct (lstrip_split s) as (lead & E & B).
  destruct (rstrip_split (lstrip s)) as (trail & E' & B').
  exists lead, trail. repeat split; auto. congruence.
Qed.

Lemma lstrip_length (s : pystr) : List.length (lstrip s) <= List.length s.
Proof.
  induction s as [|c rest IH]; simpl; auto.
  destruct (isspace c); simpl; lia.
Qed.

Lemma lstrip_fixed_head (c : codepoint) (rest : pystr) :
  lstrip (c :: rest) = c :: rest -> isspace c = false.
Proof.
  simpl. destruct (isspace c); auto. intros E.
  pose proof (lstrip_length rest) as L. rewrite E in L. simpl in L. lia.
Qed.

Lemma rstrip_fixed_last (init : pystr) (c : codepoint) :
  rstrip (init ++ [c]) = init ++ [c] -> isspace c = false.
Proof.
  unfold rstrip. rewrite rev_app_distr. simpl. intros E.
  apply (f_equal (@List.rev _)) in E.
  rewrite rev_involutive, rev_app_distr in E. simpl in E.
  now apply lstrip_fixed_head in E.
Qed.

(** X4.  Trimming takes whitespace off the two ends of a page's text and
    nothing else: the text is the stored content between two runs of
    whitespace, the content neither starts nor ends with whitespace, and
    it is not empty when the text has a character that is not
    whitespace. *)
Theorem stored_content_is_text_without_outer_whitespace
        (lib : pdfplumber) (pdf_path : Path.t)
        (recs : list PageRecord) (r : PageRecord) :
  extract_pdf_text lib pdf_path = Success recs ->
  In r recs ->
  exists pages i text lead trail,
    lib pdf_path = Opened pages
    /\ nth_error pages i = Some (PageText text)
    /\ page r = (Z.of_nat i + 1)%Z
    /\ text = lead ++ content r ++ trail
    /\ blank lead /\ blank trail
    /\ (forall c rest, content r = c :: rest -> isspace c = false)
    /\ (forall init c, content r = init ++ [c] -> isspace c = false)
    /\ ((exists c, In c text /\ isspace c = false) -> content r <> []).
Proof.
  intros H I. destruct (extract_pdf_text_records _ _ H) as (pages & O & M).
  apply M in I. destruct I as (i & text & N & _ & ->). simpl.
  destruct (strip_split text) as (lead & trail & E & BL & BT).
  destruct (strip_trimmed text) as [TL TR].
  exists pages, i, text, lead, trail. repeat split; auto.
  - intros c rest C. rewrite C in TL. now apply lstrip_fixed_head in TL.
  - intros init c C. rewrite C in TR. now apply rstrip_fixed_last in TR.
  - intros (c & IC & NS) EMPTY. rewrite EMPTY in E. simpl in E.
    rewrite E in IC. apply in_app_iff in IC.
    unfold blank in BL, BT. rewrite Forall_forall in BL, BT.
    destruct IC as [IC|IC]; [apply BL in IC | apply BT in IC]; congruence.
Qed.

Lemma stored_content_is_text_without_outer_whitespace_witness :
  exists pages i text lead trail,
    Sample.lib (Sample.file "a.pdf") = Opened pages
    /\ nth_error pages i = Some (PageText text)
    /\ page {| page := 1; content := lit "Hola" |} = (Z.of_nat i + 1)%Z
    /\ text = lead ++ content {| page := 1; content := lit "Hola" |} ++ trail
    /\ blank lead /\ blank trail
    /\ (forall c rest,
          content {| page := 1; content := lit "Hola" |} = c :: rest ->
          isspace c = false)
    /\ (forall init c,
          content {| page := 1; content := lit "Hola" |} = init ++ [c] ->
          isspace c = false)
    /\ ((exists c, In c text /\ isspace c = false) ->
        content {| page := 1; content := lit "Hola" |} <> []).
Proof.
  apply (@stored_content_is_text_without_outer_whitespace
           Sample.lib (Sample.file "a.pdf")
           [ {| page := 1; content := lit "Hola" |};
             {| page := 3; content := [] |};
             {| page := 5; content := lit "a" ++ [241%N] ++ lit "o" |} ]).
  - reflexivity.
  - simpl. tauto.
Defined.

(* ================================================================= *)
(** ** More on the enumeration and the report *)

Lemma startswith_spec (p s : pystr) :
  startswith p s = true <-> exists post, s = p ++ post.
Proof.
  revert s. induction p as [|a p IH]; intros s; simpl.
  - split; eauto.
  - destruct s as [|b s].
    + split; [discriminate | intros (post & E); discriminate].
    + rewrite andb_true_iff, N.eqb_eq, IH. split.
      * intros (-> & post & ->). eauto.
      * intros (post & [= -> ->]). eauto.
Qed.

Lemma endswith_spec (p s : pystr) :
  endswith p s = true <-> exists pre, s = pre ++ p.
Proof.
  unfold endswith. rewrite startswith_spec. split.
  - intros (post & E). exists (List.rev post).
    apply (f_equal (@List.rev _)) in E.
    now rewrite rev_involutive, rev_app_distr, rev_involutive in E.
  - intros (pre & ->). exists (List.rev pre). apply rev_app_distr.
Qed.

Lemma enumerated_In listing name :
  In name (enumerated listing)
  <-> In name listing /\ exists stem, name = stem ++ lit ".pdf".
Proof.
  now rewrite enumerated_filter, filter_In, endswith_spec.
Qed.

Lemma dict_get_None d k : dict_get d k = None <-> ~ In k (dict_keys d).
Proof.
  induction d as [|[k' v] rest IH]; simpl; [tauto|].
  destruct (PyStr.eqb k' k) eqn:E.
  - apply eqb_eq in E. split; [discriminate | tauto].
  - apply eqb_neq in E. rewrite IH. tauto.
Qed.

(** X5.  A name is a key of the report exactly when it is the name of an
    entry of the directory and ends in [.pdf], letter for letter; under
    any other name the report holds nothing. *)
Theorem report_key_iff_pdf_entry
        (lib : pdfplumber) (listing : list pystr) (name : pystr) :
  let report := returned (analyze_pdf_files lib listing) in
  (In name (dict_keys report)
   <-> In name listing /\ exists stem, name = stem ++ lit ".pdf")
  /\ (dict_get report name = None
      <-> ~ (In name listing /\ exists stem, name = stem ++ lit ".pdf")).
Proof.
  cbv zeta.
  assert (K : In name (dict_keys (returned (analyze_pdf_files lib listing)))
              <-> In name listing /\ exists stem, name = stem ++ lit ".pdf").
  { rewrite returned_loop, loop_keys_In, enumerated_In. simpl. tauto. }
  split; [exact K|]. now rewrite dict_get_None, K.
Qed.

(** Upper case is another suffix. *)
Example upper_case_suffix_is_not_enumerated :
  enumerated [lit "scan.PDF"; lit "scan.pdf"; lit ".pdf"; lit "pdf"]
  = [lit "scan.pdf"; lit ".pdf"].
Proof. reflexivity. Qed.

(** X6.  What the report holds for a file depends on that file alone:
    it is what [extract_pdf_text] returns for it, and two libraries that
    agree on the file give it the same entry, however they differ on the
    other files of the directory (which may raise or not). *)
Theorem entry_depends_on_its_file_alone
        (lib1 lib2 : pdfplumber) (listing : list pystr) (pdf_file : Path.t) :
  In pdf_file (glob_pdf base_path listing) ->
  lib1 pdf_file = lib2 pdf_file ->
  dict_get (returned (analyze_pdf_files lib1 listing)) (Path.name pdf_file)
  = Some (extract_pdf_text lib1 pdf_file)
  /\ dict_get (returned (analyze_pdf_files lib2 listing)) (Path.name pdf_file)
     = dict_get (returned (analyze_pdf_files lib1 listing))
                (Path.name pdf_file).
Proof.
  intros I AG. rewrite !returned_get_file by exact I.
  split; auto. f_equal. symmetry. now apply extract_pdf_text_ext.
Qed.

Lemma entry_depends_on_its_file_alone_witness :
  dict_get (returned (analyze_pdf_files Sample.lib Sample.listing))
           (Path.name (Sample.file "a.pdf"))
  = Some (extract_pdf_text Sample.lib (Sample.file "a.pdf"))
  /\ dict_get (returned (analyze_pdf_files Scenario.lenient Sample.listing))
              (Path.name (Sample.file "a.pdf"))
     = dict_get (returned (analyze_pdf_files Sample.lib Sample.listing))
                (Path.name (Sample.file "a.pdf")).
Proof.
  apply (@entry_depends_on_its_file_alone
           Sample.lib Scenario.lenient Sample.listing (Sample.file "a.pdf")).
  - vm_compute. tauto.
  - reflexivity.
Defined.

(** X7.  When the names of the directory are distinct, the report is, in
    the order of enumeration, the name of every enumerated file paired
    with the result of [extract_pdf_text] for it. *)
Theorem report_lists_every_file_in_order
        (lib : pdfplumber) (listing : list pystr) :
  NoDup listing ->
  returned (analyze_pdf_files lib listing)
  = map (fun pdf_file => (Path.name pdf_file, extract_pdf_text lib pdf_file))
        (glob_pdf base_path listing).
Proof.
  intros ND. rewrite returned_entries.
  rewrite returned_loop, loop_keys_fresh.
  - simpl. rewrite glob_pdf_enumerated, map_map.
    apply map_ext. intros name. now rewrite name_joinpath.
  - simpl. rewrite enumerated_filter. now apply NoDup_filter.
Qed.

Lemma report_lists_every_file_in_order_witness :
  returned (analyze_pdf_files Sample.lib Sample.listing)
  = map (fun pdf_file =>
           (Path.name pdf_file, extract_pdf_text Sample.lib pdf_file))
        (glob_pdf base_path Sample.listing).
Proof.
  apply (@report_lists_every_file_in_order Sample.lib Sample.listing).
  repeat (constructor; [simpl; intuition discriminate|]). constructor.
Defined.

(* ================================================================= *)
(** ** More on the console and the output file *)

(** X9.  For an enumerated file on which the library raises, the console
    shows, after the line naming the file, the error string after the
    label [Error], and then the empty line: neither a page count nor a
    preview. *)
Theorem failure_is_printed_verbatim
        (lib : pdfplumber) (listing : list pystr) (pdf_file : Path.t) :
  In pdf_file (glob_pdf base_path listing) ->
  faulty (lib pdf_file) ->
  exists e before after,
    raised (lib pdf_file) = Some e
    /\ printed (analyze_pdf_files lib listing)
       = before
           ++ [ lit "Processing: " ++ Path.name pdf_file;
                lit "  - Error: Error extracting from "
                  ++ Path.str pdf_file ++ lit ": " ++ e;
                [] ]
           ++ after.
Proof.
  intros I F. destruct (faulty_raised _ F) as [e R].
  destruct (printed_block lib _ _ I) as (before & after & P).
  exists e, before, after. split; auto.
  rewrite P. unfold file_block.
  rewrite (extract_pdf_text_raised lib pdf_file R).
  reflexivity.
Qed.

Lemma failure_is_printed_verbatim_witness :
  exists e before after,
    raised (Sample.lib (Sample.file "b.pdf")) = Some e
    /\ printed (analyze_pdf_files Sample.lib Sample.listing)
       = before
           ++ [ lit "Processing: " ++ Path.name (Sample.file "b.pdf");
                lit "  - Error: Error extracting from "
                  ++ Path.str (Sample.file "b.pdf") ++ lit ": " ++ e;
                [] ]
           ++ after.
Proof.
  apply (@failure_is_printed_verbatim
           Sample.lib Sample.listing (Sample.file "b.pdf")).
  - vm_compute. tauto.
  - exact I.
Defined.

Lemma filter_none (A : Type) (f : A -> bool) (l : list A) :
  Forall (fun x => f x = false) l -> filter f l = [].
Proof.
  induction 1 as [|x l H _ IH]; simpl; auto. now rewrite H.
Qed.

(** X10.  In a directory without a name ending in [.pdf] nothing is
    processed: the report is the empty mapping, the file written holds
    the two braces of the empty JSON object, and the console shows the
    closing line only. *)
Theorem directory_without_pdf_gives_empty_report
        (lib : pdfplumber) (listing : list pystr) :
  Forall (fun name => endswith (lit ".pdf") name = false) listing ->
  returned (analyze_pdf_files lib listing) = []
  /\ written (analyze_pdf_files lib listing) = lit "{}"
  /\ printed (analyze_pdf_files lib listing) = [saved_line].
Proof.
  intros F. unfold analyze_pdf_files, glob_pdf.
  rewrite (filter_none _ F). repeat split.
Qed.

Lemma directory_without_pdf_gives_empty_report_witness :
  returned (analyze_pdf_files Sample.lib Scenario.no_pdfs) = []
  /\ written (analyze_pdf_files Sample.lib Scenario.no_pdfs) = lit "{}"
  /\ printed (analyze_pdf_files Sample.lib Scenario.no_pdfs) = [saved_line].
Proof.
  apply (@directory_without_pdf_gives_empty_report
           Sample.lib Scenario.no_pdfs).
  repeat constructor.
Defined.

(** X11.  The file the report is written to is never one of the files
    the run reads: every enumerated file lies in the input directory, the
    output file lies in its parent, so writing the report leaves the
    input directory as it was. *)
Theorem output_file_is_not_an_input
        (lib : pdfplumber) (listing : list pystr) (pdf_file : Path.t) :
  In pdf_file (glob_pdf base_path listing) ->
  Path.parent pdf_file = base_path
  /\ Path.parent (output_file (analyze_pdf_files lib listing)) <> base_path
  /\ pdf_file <> output_file (analyze_pdf_files lib listing).
Proof.
  intros I. destruct (glob_pdf_In _ _ I) as [_ E].
  assert (P : Path.parent pdf_file = base_path)
    by (rewrite E; apply parent_joinpath).
  assert (Q : Path.parent (output_file (analyze_pdf_files lib listing))
              <> base_path).
  { unfold analyze_pdf_files. cbn [output_file].
    rewrite parent_joinpath. intros B.
    apply (f_equal (fun p => List.length (Path.parts p))) in B.
    vm_compute in B. discriminate. }
  repeat split; auto. intros EQ. apply Q. now rewrite <- EQ.
Qed.

Lemma output_file_is_not_an_input_witness :
  Path.parent (Sample.file "a.pdf") = base_path
  /\ Path.parent (output_file (analyze_pdf_files Sample.lib Sample.listing))
     <> base_path
  /\ Sample.file "a.pdf"
     <> output_file (analyze_pdf_files Sample.lib Sample.listing).
Proof.
  apply (@output_file_is_not_an_input
           Sample.lib Sample.listing (Sample.file "a.pdf")).
  vm_compute. tauto.
Defined.

(** X12.  The preview is never longer than 203 characters, it starts with
    the first 200 characters of the content, and for a content of 201 or
    202 characters it is longer than the content itself. *)
Theorem preview_is_bounded (c : pystr) :
  List.length (first_page_preview c) <= 203
  /\ firstn 200 (first_page_preview c) = firstn 200 c
  /\ List.length (first_page_preview c)
     = (if 200 <? List.length c then 203 else List.length c)
  /\ (200 < List.length c < 203 ->
      List.length c < List.length (first_page_preview c)).
Proof.
  destruct (Nat.ltb_spec 200 (List.length c)) as [L|L].
  - destruct (first_page_preview_long c L) as [E LEN].
    rewrite LEN. repeat split; auto; try lia.
    rewrite E, firstn_app, length_firstn, Nat.min_l by lia.
    rewrite Nat.sub_diag, firstn_O, app_nil_r, firstn_firstn.
    now rewrite Nat.min_id.
  - rewrite (first_page_preview_short c L). repeat split; auto; lia.
Qed.

(** X13.  The page count on the console is the number of pages whose
    text is not empty, not the number of pages of the document. *)
Theorem printed_page_count_is_pages_with_text
        (lib : pdfplumber) (listing : list pystr) (pdf_file : Path.t)
        (pages : list page_outcome) :
  In pdf_file (glob_pdf base_path listing) ->
  lib pdf_file = Opened pages ->
  ~ faulty (lib pdf_file) ->
  exists before after,
    printed (analyze_pdf_files lib listing)
    = before
        ++ [ lit "Processing: " ++ Path.name pdf_file;
             lit "  - Pages: "
               ++ of_nat (List.length (filter has_text pages)) ]
        ++ after.
Proof.
  intros I O NF.
  destruct (raised (lib pdf_file)) as [e|] eqn:R;
    [destruct NF; eapply raised_faulty; eauto|].
  destruct (extract_pdf_text_total lib pdf_file R) as [recs E].
  destruct (extract_pdf_text_success _ _ E) as (pages' & O' & _ & EP).
  rewrite O in O'. injection O' as <-.
  pose proof (extract_pages_length _ _ EP) as L.
  destruct (printed_block lib _ _ I) as (before & after & P).
  rewrite P. unfold file_block. rewrite E. cbn [print_summary]. rewrite L.
  exists before. eexists. cbn [app]. reflexivity.
Qed.

Lemma printed_page_count_is_pages_with_text_witness :
  exists before after,
    printed (analyze_pdf_files Sample.lib Sample.listing)
    = before
        ++ [ lit "Processing: " ++ Path.name (Sample.file "a.pdf");
             lit "  - Pages: "
               ++ of_nat (List.length (filter has_text Sample.a_pages)) ]
        ++ after.
Proof.
  apply (@printed_page_count_is_pages_with_text
           Sample.lib Sample.listing (Sample.file "a.pdf") Sample.a_pages).
  - vm_compute. tauto.
  - reflexivity.
  - intros (e & F). vm_compute in F.
    repeat (destruct F as [F|F]; [discriminate|]). destruct F.
Defined.

(* ----------------------------------------------------------------- *)
(** *** Writing the text as UTF-8 *)

Lemma encode_char_scalar (c : codepoint) :
  scalar c = true -> exists b, Utf8.encode_char c = Some b.
Proof.
  unfold scalar, Utf8.encode_char. intros S.
  apply andb_true_iff in S. destruct S as [R NS].
  apply negb_true_iff in NS.
  destruct (c <? 128)%N; [eauto|].
  destruct (c <? 2048)%N; [eauto|].
  destruct (c <? 65536)%N.
  - rewrite NS. eauto.
  - rewrite R. eauto.
Qed.

Lemma encode_scalars (s : pystr) :
  forallb scalar s = true -> exists b, Utf8.encode s = Some b.
Proof.
  induction s as [|c rest IH]; simpl; [eauto|].
  intros F. apply andb_true_iff in F. destruct F as [C F].
  destruct (encode_char_scalar c C) as [b ->].
  destruct (IH F) as [bs ->]. eauto.
Qed.

Lemma non_ascii_of_report_chars (report : AnalysisReport) (c : codepoint) :
  In c (non_ascii_of_report report) -> In c (report_chars report).
Proof.
  unfold non_ascii_of_report, report_chars. rewrite !in_flat_map.
  intros ([k v] & I & C). exists (k, v). split; auto.
  cbn [fst snd] in *. rewrite in_app_iff in *.
  destruct C as [C|C].
  - left. now apply filter_In in C.
  - right. destruct v as [recs|message]; simpl in C.
    + apply in_flat_map in C. destruct C as (r & IR & C).
      apply in_flat_map. exists r. split; auto. now apply filter_In in C.
    + now apply filter_In in C.
Qed.

(** A character of the document is ASCII or comes from the report. *)
Lemma dumps_chars (indent : nat) (report : AnalysisReport) (c : codepoint) :
  In c (Json.dumps false indent report) ->
  (c <= 127)%N \/ In c (report_chars report).
Proof.
  intros I. destruct (N.le_gt_cases c 127) as [L|L]; auto. right.
  apply non_ascii_of_report_chars. rewrite <- (dumps_keeps_non_ascii indent).
  apply filter_In. split; auto. unfold non_ascii. now apply N.ltb_lt.
Qed.

(* ================================================================= *)
(** ** The write *)

(* ----------------------------------------------------------------- *)
(** *** The chunks make up the text *)

Lemma join_cons (sep x : pystr) (rest : list pystr) :
  Json.join sep (x :: rest) = x ++ flat_map (fun y => sep ++ y) rest.
Proof.
  revert x. induction rest as [|y rest IH]; intros x.
  - simpl. now rewrite app_nil_r.
  - change (Json.join sep (x :: y :: rest))
      with (x ++ sep ++ Json.join sep (y :: rest)).
    rewrite IH. cbn [flat_map]. now rewrite <- !app_assoc.
Qed.

Section Chunks.

Variable item_text : pystr * list pystr -> pystr.
Hypothesis item_text_eq :
  forall it, item_text it = fst it ++ lit ": " ++ List.concat (snd it).

Lemma dict_items_later (sep : pystr) (items : list (pystr * list pystr)) :
  List.concat (Iterencode.dict_items sep false items)
  = flat_map (fun y => sep ++ y) (map item_text items).
Proof.
  induction items as [|[k v] rest IH]; auto.
  cbn [Iterencode.dict_items map flat_map].
  rewrite !concat_app, IH, item_text_eq. cbn [List.concat fst snd app].
  now rewrite app_nil_r, <- !app_assoc.
Qed.

Lemma iterencode_dict_text indent level
      (items : list (pystr * list pystr)) :
  List.concat (Iterencode.iterencode_dict indent level items)
  = Json.container (lit "{") (lit "}") indent level (map item_text items).
Proof.
  destruct items as [|[k v] rest]; [reflexivity|].
  unfold Iterencode.iterencode_dict, Json.container.
  cbn [Iterencode.dict_items map].
  rewrite join_cons, !concat_app, dict_items_later, item_text_eq.
  cbn [List.concat fst snd app].
  now rewrite !app_nil_r, <- !app_assoc.
Qed.

End Chunks.

Lemma list_items_later (sep : pystr) (items : list (list pystr)) :
  List.concat (Iterencode.list_items sep sep items)
  = flat_map (fun y => sep ++ y) (map (@List.concat _) items).
Proof.
  induction items as [|v rest IH]; auto.
  cbn [Iterencode.list_items map flat_map].
  rewrite !concat_app, IH. cbn [List.concat app].
  now rewrite app_nil_r, <- app_assoc.
Qed.

Lemma iterencode_list_text indent level (items : list (list pystr)) :
  List.concat (Iterencode.iterencode_list indent level items)
  = Json.container (lit "[") (lit "]") indent level (map (@List.concat _) items).
Proof.
  destruct items as [|v rest]; [reflexivity|].
  unfold Iterencode.iterencode_list, Json.container.
  cbn [Iterencode.list_items map].
  rewrite join_cons, !concat_app, list_items_later.
  cbn [List.concat app].
  now rewrite !app_nil_r, <- !app_assoc.
Qed.

Lemma page_record_chunks ensure_ascii indent level (r : PageRecord) :
  List.concat (Iterencode.page_record ensure_ascii indent level r)
  = Json.page_record ensure_ascii indent level r.
Proof.
  unfold Iterencode.page_record, Json.page_record.
  rewrite (iterencode_dict_text
             (fun it => fst it ++ lit ": " ++ List.concat (snd it)))
    by reflexivity.
  cbn [map fst snd List.concat]. unfold Json.member.
  now rewrite !app_nil_r.
Qed.

Lemma file_result_chunks ensure_ascii indent level (r : FileResult) :
  List.concat (Iterencode.file_result ensure_ascii indent level r)
  = Json.file_result ensure_ascii indent level r.
Proof.
  destruct r as [recs|message];
    cbn [Iterencode.file_result Json.file_result].
  - rewrite iterencode_list_text, map_map. f_equal.
    apply map_ext. intros r. apply page_record_chunks.
  - cbn [List.concat]. apply app_nil_r.
Qed.

(** The chunks of [iterencode], put together, are the text of [dumps]. *)
Lemma report_chunks ensure_ascii indent (report : AnalysisReport) :
  List.concat (Iterencode.report ensure_ascii indent report)
  = Json.dumps ensure_ascii indent report.
Proof.
  unfold Iterencode.report, Json.dumps.
  rewrite (iterencode_dict_text
             (fun it => fst it ++ lit ": " ++ List.concat (snd it)))
    by reflexivity.
  rewrite map_map. f_equal. apply map_ext. intros [k v].
  cbn [fst snd]. unfold Json.member. now rewrite file_result_chunks.
Qed.

(* ----------------------------------------------------------------- *)
(** *** What the codec takes *)

Lemma encode_char_refused (c : codepoint) :
  scalar c = false -> Utf8.encode_char c = None.
Proof.
  unfold scalar, Utf8.encode_char. intros S.
  apply andb_false_iff in S.
  destruct (N.ltb_spec c 128), (N.ltb_spec c 2048), (N.ltb_spec c 65536),
    (N.ltb_spec c 1114112), (N.leb_spec 55296 c), (N.leb_spec c 57343);
    simpl in *; try lia; try reflexivity;
    destruct S; discriminate.
Qed.

(** The codec takes a text exactly when all its characters are scalar
    values. *)
Lemma encode_refused (s : pystr) :
  forallb scalar s = false -> Utf8.encode s = None.
Proof.
  induction s as [|c rest IH]; simpl; [discriminate|].
  intros F. apply andb_false_iff in F. destruct F as [C|F].
  - now rewrite (encode_char_refused c C).
  - rewrite (IH F). now destruct (Utf8.encode_char c).
Qed.

Lemma forallb_scalar_app (a b : pystr) :
  forallb scalar (a ++ b) = forallb scalar a && forallb scalar b.
Proof. apply forallb_app. Qed.

Lemma write_chunks_taken (chunks : list pystr) :
  snd (write_chunks chunks) = forallb scalar (List.concat chunks).
Proof.
  induction chunks as [|chunk rest IH]; auto.
  cbn [write_chunks List.concat]. rewrite forallb_scalar_app.
  destruct (forallb scalar chunk) eqn:C.
  - destruct (encode_scalars chunk C) as [b ->]. exact IH.
  - now rewrite (encode_refused chunk C).
Qed.

Lemma write_chunks_all (chunks : list pystr) :
  forallb scalar (List.concat chunks) = true ->
  fst (write_chunks chunks) = List.concat chunks.
Proof.
  induction chunks as [|chunk rest IH]; auto.
  cbn [write_chunks List.concat]. rewrite forallb_scalar_app.
  intros F. apply andb_true_iff in F. destruct F as [C F].
  destruct (encode_scalars chunk C) as [b ->]. cbn [fst].
  now rewrite IH.
Qed.

(** What the file has taken is the text up to the first chunk the codec
    refuses. *)
Lemma write_chunks_prefix (chunks : list pystr) :
  exists before refused,
    chunks = before ++ refused
    /\ fst (write_chunks chunks) = List.concat before
    /\ forallb scalar (List.concat before) = true
    /\ match refused with
       | [] => snd (write_chunks chunks) = true
       | chunk :: _ =>
           forallb scalar chunk = false /\ snd (write_chunks chunks) = false
       end.
Proof.
  induction chunks as [|chunk rest (before & refused & E & W & S & R)].
  - exists [], []. repeat split.
  - cbn [write_chunks]. destruct (forallb scalar chunk) eqn:C.
    + destruct (encode_scalars chunk C) as [b ->].
      exists (chunk :: before), refused. cbn [fst snd List.concat].
      rewrite forallb_scalar_app, C, S, W.
      split; [simpl; now f_equal|]. repeat split. exact R.
    + rewrite (encode_refused chunk C).
      exists [], (chunk :: rest). repeat split. exact C.
Qed.

Lemma scalar_ascii (c : codepoint) : (c <= 127)%N -> scalar c = true.
Proof.
  intros L. unfold scalar.
  replace (c <? 1114112)%N with true by (symmetry; apply N.ltb_lt; lia).
  replace (55296 <=? c)%N with false by (symmetry; apply N.leb_gt; lia).
  reflexivity.
Qed.

Lemma report_chars_non_ascii (report : AnalysisReport) (c : codepoint) :
  In c (report_chars report) -> (127 < c)%N ->
  In c (non_ascii_of_report report).
Proof.
  unfold non_ascii_of_report, report_chars. rewrite !in_flat_map.
  intros ([k v] & I & C) L. exists (k, v). split; auto.
  assert (NA : non_ascii c = true) by (now apply N.ltb_lt).
  cbn [fst snd] in *. rewrite in_app_iff in *.
  destruct C as [C|C].
  - left. now apply filter_In.
  - right. destruct v as [recs|message]; simpl.
    + apply in_flat_map in C. destruct C as (r & IR & C).
      apply in_flat_map. exists r. split; auto. now apply filter_In.
    + now apply filter_In.
Qed.

(** The text of the document is made of scalar values exactly when the
    strings of the report are. *)
Lemma dumps_scalar (indent : nat) (report : AnalysisReport) :
  forallb scalar (Json.dumps false indent report)
  = forallb scalar (report_chars report).
Proof.
  apply eq_true_iff_eq. rewrite !forallb_forall. split; intros H c I.
  - destruct (N.le_gt_cases c 127) as [L|L]; [now apply scalar_ascii|].
    apply H. pose proof (@report_chars_non_ascii report c I L) as NA.
    rewrite <- (dumps_keeps_non_ascii indent) in NA.
    now apply filter_In in NA.
  - apply dumps_chars in I. destruct I as [L|I]; auto.
    now apply scalar_ascii.
Qed.

(* ----------------------------------------------------------------- *)
(** *** The end of the run *)

Section End_of_run.

Variable lib : pdfplumber.
Variable listing : list pystr.

Local Abbreviation r := (analyze_pdf_files lib listing).

Lemma write_taken :
  snd (write_chunks (Iterencode.report false 2 (returned r)))
  = forallb scalar (report_chars (returned r)).
Proof. now rewrite write_chunks_taken, report_chunks, dumps_scalar. Qed.

(** The call returns exactly when the strings of the report are made of
    scalar values; otherwise the write raises. *)
Lemma ends_by_scalar :
  ends r = if forallb scalar (report_chars (returned r))
           then ReturnsReport else RaisesUnicodeEncodeError.
Proof. rewrite <- write_taken. reflexivity. Qed.

Lemma printed_by_scalar :
  printed r
  = flat_map (file_block lib) (glob_pdf base_path listing)
      ++ (if forallb scalar (report_chars (returned r))
          then [saved_line] else []).
Proof. rewrite <- write_taken. apply printed_blocks. Qed.

Lemma written_in_full :
  forallb scalar (report_chars (returned r)) = true ->
  written r = Json.dumps false 2 (returned r).
Proof.
  intros F. rewrite <- (report_chunks false 2).
  apply write_chunks_all. now rewrite report_chunks, dumps_scalar.
Qed.

(** The file never holds a text the codec refuses. *)
Lemma written_encodes : exists bytes, Utf8.encode (written r) = Some bytes.
Proof.
  apply encode_scalars.
  destruct (write_chunks_prefix (Iterencode.report false 2 (returned r)))
    as (before & refused & _ & W & S & _).
  change (written r)
    with (fst (write_chunks (Iterencode.report false 2 (returned r)))).
  now rewrite W.
Qed.

(** When the write raises, the file holds a strict beginning of the
    text. *)
Lemma written_cut :
  forallb scalar (report_chars (returned r)) = false ->
  exists rest,
    Json.dumps false 2 (returned r) = written r ++ rest /\ rest <> [].
Proof.
  intros F.
  destruct (write_chunks_prefix (Iterencode.report false 2 (returned r)))
    as (before & refused & E & W & S & R).
  change (fst (write_chunks (Iterencode.report false 2 (returned r))))
    with (written r) in W.
  exists (List.concat refused). split.
  - now rewrite <- (report_chunks false 2), E, concat_app, W.
  - rewrite write_taken, F in R. destruct refused as [|chunk rest].
    + discriminate.
    + destruct R as [C _]. intros Z. cbn [List.concat] in Z.
      apply app_eq_nil in Z. destruct Z as [-> _]. discriminate.
Qed.

End End_of_run.

Lemma contains_occurs (needle hay : pystr) :
  contains needle hay -> occurs needle hay = true.
Proof.
  intros (pre & post & ->). induction pre as [|c pre IH].
  - assert (S : startswith needle (needle ++ post) = true)
      by (apply startswith_spec; eauto).
    simpl. destruct (needle ++ post); simpl; now rewrite S.
  - simpl. rewrite IH. apply orb_true_r.
Qed.

(* ================================================================= *)
(** ** The report and its file *)

(** C6.  The keys of the mapping a run builds are the enumerated file
    names: no key occurs twice, a name is a key exactly when it was
    enumerated, and, the entries of a directory being distinct, the keys
    are the enumerated names in their order.  When no string of the
    mapping holds a surrogate code point, the file holds the JSON object
    with one member per key, whose value is the result of that file. *)
Theorem report_keys_are_the_enumerated_names
        (lib : pdfplumber) (listing : list pystr) :
  let report := returned (analyze_pdf_files lib listing) in
  NoDup (dict_keys report)
  /\ (forall name, In name (dict_keys report) <-> In name (enumerated listing))
  /\ (NoDup listing -> dict_keys report = enumerated listing)
  /\ (forallb scalar (report_chars report) = true ->
      written (analyze_pdf_files lib listing)
      = Json.container (lit "{") (lit "}") 2 0
          (map (fun name =>
                  Json.member false name
                    (Json.file_result false 2 1 (result_of lib name)))
               (dict_keys report))).
Proof.
  cbv zeta. split; [|split; [|split]].
  - rewrite returned_loop. apply loop_keys_NoDup. constructor.
  - intros name. rewrite returned_loop, loop_keys_In. simpl. tauto.
  - intros ND. rewrite returned_loop, loop_keys_fresh; auto.
    simpl. rewrite enumerated_filter. now apply NoDup_filter.
  - intros F. rewrite (written_in_full lib listing F).
    unfold Json.dumps. f_equal.
    rewrite returned_entries at 1. now rewrite map_map.
Qed.

Lemma report_keys_are_the_enumerated_names_witness :
  written (analyze_pdf_files Sample.lib Sample.listing)
  = Json.container (lit "{") (lit "}") 2 0
      (map (fun name =>
              Json.member false name
                (Json.file_result false 2 1 (result_of Sample.lib name)))
           (dict_keys (returned (analyze_pdf_files Sample.lib Sample.listing)))).
Proof.
  apply (proj2 (proj2 (proj2
           (report_keys_are_the_enumerated_names Sample.lib Sample.listing)))).
  reflexivity.
Defined.

(** Two readable files, the first with a lone surrogate on its page:
    both names are keys of the mapping, the write raises at the content
    of the first, and the name of the second never reaches the file. *)
Lemma second_file_is_missing_from_the_cut_json :
  let r := analyze_pdf_files Scenario.surrogate Scenario.two_files in
  (forall pdf_file,
      In pdf_file (glob_pdf base_path Scenario.two_files) ->
      raised (Scenario.surrogate pdf_file) = None)
  /\ enumerated Scenario.two_files = [lit "a.pdf"; lit "b.pdf"]
  /\ dict_keys (returned r) = [lit "a.pdf"; lit "b.pdf"]
  /\ ends r = RaisesUnicodeEncodeError
  /\ ~ contains (lit "b.pdf") (written r)
  /\ written r
     <> Json.container (lit "{") (lit "}") 2 0
          (map (fun name =>
                  Json.member false name
                    (Json.file_result false 2 1
                       (result_of Scenario.surrogate name)))
               (dict_keys (returned r))).
Proof.
  cbv zeta. split; [|split; [|split; [|split; [|split]]]];
    try reflexivity.
  - intros f I. vm_compute in I.
    repeat (destruct I as [<-|I]; [reflexivity|]). destruct I.
  - intros C. apply contains_occurs in C. vm_compute in C. discriminate.
  - intros E. apply (f_equal (@List.length _)) in E. vm_compute in E.
    discriminate.
Qed.

(** C7.  The output file is [pdf_content_analysis.json] in the parent of
    the input directory, and the mapping holds, under the name of every
    enumerated file, the result of that file.  The call returns that
    mapping exactly when none of its strings holds a surrogate code
    point; the file then holds its JSON rendering, without
    [ensure_ascii] and with an indentation of 2: every character of the
    mapping beyond ASCII stands in it literally, and its lines are
    indented by two blanks per level of nesting, three levels at most. *)
Theorem report_is_dumped_beside_the_input_directory
        (lib : pdfplumber) (listing : list pystr) :
  let r := analyze_pdf_files lib listing in
  Path.parent (output_file r) = Path.parent base_path
  /\ Path.name (output_file r) = lit "pdf_content_analysis.json"
  /\ Path.str (output_file r)
     = lit "/Users/aldoruizluna/labspace/ec0249/reference/pdf_content_analysis.json"
  /\ (forall pdf_file,
        In pdf_file (glob_pdf base_path listing) ->
        dict_get (returned r) (Path.name pdf_file)
        = Some (extract_pdf_text lib pdf_file))
  /\ (forall name result,
        In (name, result) (returned r) ->
        In name (enumerated listing)
        /\ result = extract_pdf_text lib (Path.joinpath base_path name))
  /\ (ends r = ReturnsReport
      <-> forallb scalar (report_chars (returned r)) = true)
  /\ (forallb scalar (report_chars (returned r)) = true ->
      written r = Json.dumps false 2 (returned r)
      /\ (exists bytes, Utf8.encode (written r) = Some bytes)
      /\ filter non_ascii (written r) = non_ascii_of_report (returned r)
      /\ written r = Layout.render 2 (Layout.lines false (returned r)))
  /\ (forall s c, In c s -> (127 < c)%N ->
                  In c (Json.encode_basestring false s))
  /\ Forall (Layout.line_ok 3) (Layout.lines false (returned r)).
Proof.
  cbv zeta.
  split; [|split; [|split; [|split; [|split; [|split; [|split; [|split]]]]]]].
  - unfold analyze_pdf_files. cbn [output_file]. apply parent_joinpath.
  - unfold analyze_pdf_files. cbn [output_file]. apply name_joinpath.
  - reflexivity.
  - intros pdf_file I. now apply returned_get_file.
  - intros name result I. split.
    + apply (in_map fst) in I. cbn [fst] in I.
      change (map fst ?d) with (dict_keys d) in I.
      rewrite returned_loop, loop_keys_In in I. simpl in I. tauto.
    + rewrite returned_loop in I.
      apply (loop_entries lib (enumerated listing) initial); auto.
      intros k v [].
  - rewrite ends_by_scalar.
    destruct (forallb scalar _); split; auto; discriminate.
  - intros F. pose proof (written_in_full lib listing F) as W.
    split; [exact W|]. split; [apply written_encodes|]. split.
    + rewrite W. apply dumps_keeps_non_ascii.
    + rewrite W. apply dumps_lines.
  - intros s c I L. unfold Json.encode_basestring.
    rewrite !in_app_iff, in_flat_map. right. left.
    exists c. split; auto. rewrite escape_char_literal by exact L.
    now left.
  - apply lines_tidy.
Qed.

Lemma report_is_dumped_beside_the_input_directory_witness :
  ends (analyze_pdf_files Sample.lib Sample.listing) = ReturnsReport
  /\ written (analyze_pdf_files Sample.lib Sample.listing)
     = Json.dumps false 2
         (returned (analyze_pdf_files Sample.lib Sample.listing)).
Proof.
  pose proof (report_is_dumped_beside_the_input_directory
                Sample.lib Sample.listing) as H.
  cbv zeta in H. destruct H as (_ & _ & _ & _ & _ & E & W & _).
  split.
  - apply E. reflexivity.
  - apply W. reflexivity.
Defined.

(** With a lone surrogate on a page the write raises: the call returns
    nothing and the file does not hold the rendering of the mapping. *)
Lemma report_with_surrogate_is_not_dumped :
  let r := analyze_pdf_files Scenario.surrogate Scenario.two_files in
  ends r = RaisesUnicodeEncodeError
  /\ ends r <> ReturnsReport
  /\ written r <> Json.dumps false 2 (returned r)
  /\ List.length (written r) < List.length (Json.dumps false 2 (returned r)).
Proof.
  cbv zeta. split; [reflexivity|]. split; [discriminate|]. split.
  - intros E. apply (f_equal (@List.length _)) in E. vm_compute in E.
    discriminate.
  - vm_compute. repeat constructor.
Qed.

(* ================================================================= *)
(** ** The console and the codec *)


(** X14.  When no string of the report holds a surrogate code point, the
    text of the report has a UTF-8 encoding, so that writing it to the
    file opened with [encoding='utf-8'] cannot be refused by the codec:
    the file holds the whole text and the call returns. *)
Theorem report_without_surrogates_can_be_written
        (lib : pdfplumber) (listing : list pystr) :
  forallb scalar (report_chars (returned (analyze_pdf_files lib listing)))
  = true ->
  (exists bytes,
      Utf8.encode (written (analyze_pdf_files lib listing)) = Some bytes)
  /\ written (analyze_pdf_files lib listing)
     = Json.dumps false 2 (returned (analyze_pdf_files lib listing))
  /\ ends (analyze_pdf_files lib listing) = ReturnsReport.
Proof.
  intros F. split; [|split].
  - rewrite (written_in_full lib listing F).
    apply encode_scalars. now rewrite dumps_scalar.
  - now apply written_in_full.
  - now rewrite ends_by_scalar, F.
Qed.

Lemma report_without_surrogates_can_be_written_witness :
  (exists bytes,
      Utf8.encode (written (analyze_pdf_files Sample.lib Sample.listing))
      = Some bytes)
  /\ written (analyze_pdf_files Sample.lib Sample.listing)
     = Json.dumps false 2
         (returned (analyze_pdf_files Sample.lib Sample.listing))
  /\ ends (analyze_pdf_files Sample.lib Sample.listing) = ReturnsReport.
Proof.
  apply (@report_without_surrogates_can_be_written
           Sample.lib Sample.listing).
  reflexivity.
Defined.

(** A page text with a lone surrogate cannot be written. *)
Example surrogate_is_refused :
  let r := analyze_pdf_files
             (fun _ => Opened [PageText [55357%N]]) [lit "a.pdf"] in
  Utf8.encode (Json.dumps false 2 (returned r)) = None
  /\ ends r = RaisesUnicodeEncodeError
  /\ printed r = [ lit "Processing: a.pdf"; lit "  - Pages: 1";
                   lit "  - First page preview: " ++ [55357%N]; [] ].
Proof. repeat split. Qed.
